(** * kivy/uix/settings.py: the value-synchronisation contract, the JSON
    panel loader and the content-panel navigation, as a shallow embedding.

Python objects that the module mutates (the ConfigParser, a setting
item, a content panel) are threaded as explicit state; exceptions are an
outcome of every operation, next to the state reached when they were
raised. *)

From Stdlib Require Import ZArith String Ascii List Lia.
From stdpp Require Import base option list gmap strings pretty.

Set Warnings "-register-all".
Local Open Scope string_scope.
Local Open Scope Z_scope.

(** ** Python values of the [value] property *)

(** [SettingItem.value] is an [ObjectProperty]: it holds [None], a string, or
    whatever a caller assigns. Integers and booleans stand for the
    non-string objects; floats only occur as text (see [py_float]). *)
Inductive PyValue :=
| VNone
| VStr (s : string)
| VInt (z : Z)
| VBool (b : bool).

#[global] Instance PyValue_eq_dec : EqDecision PyValue.
Proof. solve_decision. Defined.

(** [isinstance(value, string_types)] *)
Definition is_string (v : PyValue) : bool :=
  match v with VStr _ => true | _ => false end.

(** [str(value)] *)
Definition py_str (v : PyValue) : string :=
  match v with
  | VNone => "None"
  | VStr s => s
  | VInt z => pretty z
  | VBool true => "True"
  | VBool false => "False"
  end.

(** [a == b] on these values: [bool] is a subclass of [int], so [True == 1];
    a string never equals a number or [None]. *)
Definition py_eq (a b : PyValue) : bool :=
  match a, b with
  | VNone, VNone => true
  | VStr s, VStr t => bool_decide (s = t)
  | VInt x, VInt y => bool_decide (x = y)
  | VBool x, VBool y => bool_decide (x = y)
  | VInt x, VBool y | VBool y, VInt x => bool_decide (x = if y then 1 else 0)
  | _, _ => false
  end.

(** Truth value of a [StringProperty] that may be [None]: [not self.section]. *)
Definition truthy (s : option string) : bool :=
  match s with
  | None | Some "" => false
  | Some _ => true
  end.

(** ** JSON documents, as [json.loads] returns them *)

(** An object is a Python [dict]: an association list with unique keys,
    maintained by [dict_set]. Numbers are the integers; documents with
    fractional numbers are outside the model. *)
Inductive json :=
| JNull
| JBool (b : bool)
| JInt (z : Z)
| JStr (s : string)
| JList (l : list json)
| JObj (d : list (string * json)).

Definition dict := list (string * json).

Fixpoint dict_get (k : string) (d : dict) : option json :=
  match d with
  | [] => None
  | (k', v) :: d' => if String.eqb k k' then Some v else dict_get k d'
  end.

(** [del d[k]] *)
Fixpoint dict_del (k : string) (d : dict) : dict :=
  match d with
  | [] => []
  | (k', v) :: d' => if String.eqb k k' then dict_del k d' else (k', v) :: dict_del k d'
  end.

(** [d[k] = v]: an existing key keeps its place, a new one goes last. *)
Fixpoint dict_set (k : string) (v : json) (d : dict) : dict :=
  match d with
  | [] => [(k, v)]
  | (k', v') :: d' =>
      if String.eqb k k' then (k, v) :: d' else (k', v') :: dict_set k v d'
  end.

(** ** Exceptions *)

Inductive exn_class :=
| Exception | ValueError | TypeError | KeyError | IOError | AttributeError
| ConfigParserError | WidgetException.

#[global] Instance exn_class_eq_dec : EqDecision exn_class.
Proof. solve_decision. Defined.

(** One constructor per [raise] of the module; [Builtin] is an exception
    raised below it (by [int], [float], [open], an index operation, the
    ConfigParser, a widget). *)
Inductive exn :=
| EitherFilenameOrData          (* Exception('You must specify either the filename or data') *)
| FirstElementMustBeList        (* ValueError('The first element must be a list') *)
| MissingTypeElement            (* ValueError('One setting are missing the type element') *)
| NoClassRegistered (ttype : json) (* ValueError('No class registered to handle the <%s> type') *)
| MoreThanOnePanel              (* Exception('ContentNoMenu cannot accept more than one settings panel') *)
| Builtin (c : exn_class).

Definition class_of (e : exn) : exn_class :=
  match e with
  | EitherFilenameOrData | MoreThanOnePanel => Exception
  | FirstElementMustBeList | MissingTypeElement | NoClassRegistered _ => ValueError
  | Builtin c => c
  end.

(** ** Outcomes and the state monad *)

(** [Unmodelled] marks an input on which the model says nothing (a runtime
    behaviour it does not cover); it is neither a return nor an exception. *)
Inductive outcome (A : Type) :=
| Ret (a : A)
| Raise (e : exn)
| Unmodelled.
Arguments Ret {A} a.
Arguments Raise {A} e.
Arguments Unmodelled {A}.

Definition M (S A : Type) : Type := S -> outcome A * S.

Definition ret {S A} (a : A) : M S A := fun s => (Ret a, s).
Definition raise {S A} (e : exn) : M S A := fun s => (Raise e, s).
Definition unmodelled {S A} : M S A := fun s => (Unmodelled, s).

Definition bind {S A B} (m : M S A) (k : A -> M S B) : M S B :=
  fun s =>
    match m s with
    | (Ret a, s') => k a s'
    | (Raise e, s') => (Raise e, s')
    | (Unmodelled, s') => (Unmodelled, s')
    end.

Definition get_state {S} : M S S := fun s => (Ret s, s).
Definition put_state {S} (s : S) : M S unit := fun _ => (Ret tt, s).

(** [try: body / except cls: handler] *)
Definition try_except {S A} (body : M S A) (cls : exn_class) (handler : M S A) : M S A :=
  fun s =>
    match body s with
    | (Raise e, s') => if bool_decide (class_of e = cls) then handler s' else (Raise e, s')
    | r => r
    end.

Declare Scope py_scope.
Delimit Scope py_scope with py.
Notation "x <- m ;; k" := (bind m (fun x => k))
  (at level 100, m at next level, right associativity) : py_scope.
Notation "m ;;; k" := (bind m (fun _ => k))
  (at level 100, right associativity) : py_scope.
Local Open Scope py_scope.

(** ** The ConfigParser interface *)

(** [kivy.config.ConfigParser] lives outside this module; the panel uses
    three of its methods. Each may raise. *)
Inductive res (A : Type) :=
| Done (a : A)
| Fails (e : exn).
Arguments Done {A} a.
Arguments Fails {A} e.

Class ConfigStore (St : Type) := {
  store_get : St -> option string -> option string -> res string;
  store_set : St -> option string -> option string -> string -> res St;
  store_write : St -> res St
}.

Definition cfg_ref := nat.
Definition settings_ref := nat.

(** What an observer of the ConfigParser and of the [Settings] widget sees. *)
Inductive Event :=
| ConfigGet (c : cfg_ref) (section key : option string)
| ConfigSet (c : cfg_ref) (section key : option string) (value : string)
| ConfigWrite (c : cfg_ref)
| OnConfigChange (s : settings_ref) (config : option cfg_ref)
                 (section key : option string) (value : string).

#[global] Instance Event_eq_dec : EqDecision Event.
Proof. solve_decision. Defined.

(** The objects shared by every panel and item: the ConfigParser instances by
    reference, the files [open] can read, and the calls made so far. *)
Record World (St : Type) := mkWorld {
  configs : gmap cfg_ref St;
  files : gmap string string;
  log : list Event
}.
Arguments mkWorld {St}.
Arguments configs {St}.
Arguments files {St}.
Arguments log {St}.

(** The properties of a [SettingsPanel] that its items reach through
    [self.panel]. *)
Record PanelProps := mkPanelProps {
  title : string;
  config : option cfg_ref;
  settings : option settings_ref
}.

Module SettingsPanel.
Section defs.

Context {St : Type} `{!ConfigStore St}.

Definition emit (ev : Event) : M (World St) unit :=
  fun w => (Ret tt, mkWorld (configs w) (files w) (log w ++ [ev])).

Definition update_config (c : cfg_ref) (st : St) : M (World St) unit :=
  fun w => (Ret tt, mkWorld (<[c := st]> (configs w)) (files w) (log w)).

(** A call of a method of the ConfigParser behind reference [c]. *)
Definition with_config {A} (c : cfg_ref) (f : St -> res A) : M (World St) A :=
  w <- get_state ;;
  match configs w !! c with
  | None => unmodelled
  | Some st => match f st with Done a => ret a | Fails e => raise e end
  end.

Definition config_get (c : cfg_ref) (section key : option string) : M (World St) string :=
  emit (ConfigGet c section key) ;;;
  with_config c (fun st => store_get st section key).

Definition config_set (c : cfg_ref) (section key : option string) (value : string)
  : M (World St) unit :=
  emit (ConfigSet c section key value) ;;;
  st <- with_config c (fun st => store_set st section key value) ;;
  update_config c st.

Definition config_write (c : cfg_ref) : M (World St) unit :=
  emit (ConfigWrite c) ;;;
  st <- with_config c store_write ;;
  update_config c st.

(** [settings.dispatch('on_config_change', config, section, key, value)] *)
Definition dispatch_on_config_change (s : settings_ref) (cfg : option cfg_ref)
    (section key : option string) (value : string) : M (World St) unit :=
  emit (OnConfigChange s cfg section key value).

(** [SettingsPanel.get_value]; [None] is Python's [None]. *)
Definition get_value (self : PanelProps) (section key : option string)
  : M (World St) (option string) :=
  match config self with
  | None => ret None
  | Some c => v <- config_get c section key ;; ret (Some v)
  end.

(** [SettingsPanel.set_value] *)
Definition set_value (self : PanelProps) (section key : option string) (value : string)
  : M (World St) unit :=
  current <- get_value self section key ;;
  if bool_decide (current = Some value) then ret tt
  else
    match config self with
    | Some c => config_set c section key value ;;; config_write c
    | None => ret tt
    end ;;;
    match settings self with
    | Some s => dispatch_on_config_change s (config self) section key value
    | None => ret tt
    end.

End defs.

End SettingsPanel.

(** ** The runtime's [int], [float] and [str] on text *)

(** Result of converting text: a value, a [ValueError], or text on which the
    interpreters this module ran on (2.7, 3.3 and later) do not agree or the
    model does not go (digit separators, non-ASCII digits, exponents,
    [inf], [nan], more digits than a float's text keeps). *)
Inductive conv (A : Type) :=
| Converted (a : A)
| Invalid
| NotCovered.
Arguments Converted {A} a.
Arguments Invalid {A}.
Arguments NotCovered {A}.

Definition code (c : ascii) : nat := nat_of_ascii c.

Definition is_digit (c : ascii) : bool :=
  ((48 <=? code c) && (code c <=? 57))%nat.

(** The ASCII characters [str.strip] removes. *)
Definition is_space (c : ascii) : bool :=
  ((code c =? 32) || ((9 <=? code c) && (code c <=? 13)))%nat.

Definition is_sign (c : ascii) : bool :=
  ((code c =? 43) || (code c =? 45))%nat.

(** Characters whose treatment depends on the interpreter: the separators
    [\x1c]-[\x1f], the underscore, and everything above ASCII. *)
Definition is_unsettled (c : ascii) : bool :=
  (((28 <=? code c) && (code c <=? 31)) || (code c =? 95) || (128 <=? code c))%nat.

Fixpoint drop_while {A} (p : A -> bool) (l : list A) : list A :=
  match l with
  | [] => []
  | x :: l' => if p x then drop_while p l' else l
  end.

(** [text.strip()] on the characters of [text] *)
Definition strip (l : list ascii) : list ascii :=
  rev (drop_while is_space (rev (drop_while is_space l))).

(** An optional sign in front: [(negative, rest)]. *)
Definition split_sign (l : list ascii) : bool * list ascii :=
  match l with
  | c :: l' => if is_sign c then ((code c =? 45)%nat, l') else (false, l)
  | [] => (false, [])
  end.

Definition digit_value (c : ascii) : Z := Z.of_nat (code c) - 48.

Definition digits_value (l : list ascii) : Z :=
  fold_left (fun acc c => 10 * acc + digit_value c) l 0.

(** [int(text)] in base ten: blanks around, an optional sign, one or more
    digits. A trailing [L] after the digits is what the long parser of 2.7
    tolerates, and is left aside. *)
Definition py_int (text : string) : conv Z :=
  let l := list_ascii_of_string text in
  if existsb is_unsettled l then NotCovered
  else
    let '(neg, ds) := split_sign (strip l) in
    match ds with
    | [] => Invalid
    | _ :: _ =>
        if forallb is_digit ds then
          Converted (if neg then - digits_value ds else digits_value ds)
        else
          match rev ds with
          | c :: ((_ :: _) as r) =>
              if ((code c =? 76) || (code c =? 108))%nat && forallb is_digit r
              then NotCovered else Invalid
          | _ => Invalid
          end
    end.

(** [text_type(n)] for an integer *)
Definition int_text (n : Z) : string := pretty n.

(** A float, as far as the model goes, by the way its text is written:
    in fixed notation (the decimal digits before and after the point,
    [int_digits] without leading zeros, [frac_digits] without trailing
    zeros, either may be empty), in exponent notation (the significant
    digits and the power of ten of the first one), an infinity, or
    not-a-number. *)
Inductive PyFloat :=
| Fixed (negative : bool) (int_digits frac_digits : list ascii)
| Scientific (negative : bool) (digits : list ascii) (exponent : Z)
| Infinity (negative : bool)
| NaN.

Definition or_zero (l : list ascii) : list ascii :=
  match l with [] => ["0"%char] | _ => l end.

Definition minus_if (negative : bool) : list ascii :=
  if negative then ["-"%char] else [].

(** The exponent of a float's text: a sign and at least two digits. *)
Definition exponent_text (e : Z) : list ascii :=
  (if e <? 0 then "-"%char else "+"%char)
    :: (if Z.abs e <? 10 then ["0"%char] else [])
    ++ list_ascii_of_string (pretty (Z.abs e)).

(** [text_type(f)] for a float. *)
Definition float_text (f : PyFloat) : string :=
  string_of_list_ascii
    match f with
    | Fixed negative int_digits frac_digits =>
        minus_if negative ++ or_zero int_digits ++ "."%char :: or_zero frac_digits
    | Scientific negative digits exponent =>
        minus_if negative
          ++ match digits with
             | [] => ["0"%char]
             | [d] => [d]
             | d :: rest => d :: "."%char :: rest
             end
          ++ "e"%char :: exponent_text exponent
    | Infinity negative => minus_if negative ++ list_ascii_of_string "inf"
    | NaN => list_ascii_of_string "nan"
    end.

Definition is_zero_digit (c : ascii) : bool := (code c =? 48)%nat.

Definition strip_leading_zeros (l : list ascii) : list ascii :=
  drop_while is_zero_digit l.

Definition strip_trailing_zeros (l : list ascii) : list ascii :=
  rev (drop_while is_zero_digit (rev l)).

(** Split at the first point: [(before, Some after)], or [(l, None)]. *)
Fixpoint split_point (l : list ascii) : list ascii * option (list ascii) :=
  match l with
  | [] => ([], None)
  | c :: l' =>
      if (code c =? 46)%nat then ([], Some l')
      else let '(a, b) := split_point l' in (c :: a, b)
  end.

(** Split at the first exponent mark, [e] or [E]. *)
Fixpoint split_exponent (l : list ascii) : list ascii * option (list ascii) :=
  match l with
  | [] => ([], None)
  | c :: l' =>
      if ((code c =? 101) || (code c =? 69))%nat then ([], Some l')
      else let '(a, b) := split_exponent l' in (c :: a, b)
  end.

(** What follows the exponent mark: an optional sign and digits. *)
Definition read_exponent (l : list ascii) : option Z :=
  let '(neg, ds) := split_sign l in
  match ds with
  | [] => None
  | _ :: _ =>
      if forallb is_digit ds
      then Some (if neg then - digits_value ds else digits_value ds)
      else None
  end.

Definition lower (c : ascii) : ascii :=
  if ((65 <=? code c) && (code c <=? 90))%nat then ascii_of_nat (code c + 32) else c.

(** [l] spells [word], whatever the case of its letters. *)
Definition spells (word : string) (l : list ascii) : bool :=
  bool_decide (map lower l = list_ascii_of_string word).

(** Characters that occur in some float literal: digits, signs, the point,
    the exponent mark, and the letters of [inf], [infinity] and [nan]. *)
Definition in_float_alphabet (c : ascii) : bool :=
  is_digit c || is_sign c ||
  existsb (fun d => (code c =? code d)%nat)
    (list_ascii_of_string ".eEiInNfFtTyYaA").

(** The float written [a.b] times ten to the [e], where that float has the
    same text under [str] of 2.7 (twelve significant digits, exponent
    notation from 1e11 on) and of 3.x (shortest text that reads back,
    exponent notation from 1e16 on): at most twelve significant digits, and
    a size below 1e10 or from 1e16 to 1e300 going up, and down to 1e-300.
    [decpt] is the place of the point with respect to the first significant
    digit. *)
Definition float_of_decimal (negative : bool) (a b : list ascii) (e : Z)
  : conv PyFloat :=
  let all := (a ++ b)%list in
  let nonzero := strip_leading_zeros all in
  let sig := strip_trailing_zeros nonzero in
  match sig with
  | [] => Converted (Fixed negative [] [])
  | _ :: _ =>
      let decpt := Z.of_nat (length a) - Z.of_nat (length all - length nonzero) + e in
      if (12 <? length sig)%nat then NotCovered
      else if (-4 <? decpt) && (decpt <=? 10) then
        let d := Z.to_nat decpt in
        Converted
          (if decpt <=? 0
           then Fixed negative [] (replicate (Z.to_nat (- decpt)) "0"%char ++ sig)
           else Fixed negative
                      (take d sig ++ replicate (d - length sig) "0"%char)
                      (drop d sig))
      else if ((17 <=? decpt) && (decpt <=? 300))
              || ((-300 <=? decpt) && (decpt <=? -4))
      then Converted (Scientific negative sig (decpt - 1))
      else NotCovered
  end.

(** [float(text)]: blanks around, an optional sign, then [inf], [infinity]
    or [nan] in any case, or digits with an optional point and an optional
    exponent. Text with a character that no float literal contains is a
    [ValueError]. *)
Definition py_float (text : string) : conv PyFloat :=
  let l := list_ascii_of_string text in
  if existsb is_unsettled l then NotCovered
  else
    let s := strip l in
    match s with
    | [] => Invalid
    | _ :: _ =>
        if negb (forallb in_float_alphabet s) then Invalid
        else
          let '(neg, body) := split_sign s in
          if spells "inf" body || spells "infinity" body then Converted (Infinity neg)
          else if spells "nan" body then Converted NaN
          else
            let '(mantissa, ex) := split_exponent body in
            let '(a, b) := split_point mantissa in
            let b := default [] b in
            let e := match ex with
                     | None => Some 0
                     | Some x => read_exponent x
                     end in
            match e with
            | Some e =>
                if forallb is_digit a && forallb is_digit b
                   && negb (bool_decide (a = []) && bool_decide (b = []))
                then float_of_decimal neg a b e
                else NotCovered
            | None => NotCovered
            end
    end.

(** ['.' in s] *)
Definition has_point (s : string) : bool :=
  existsb (fun c => (code c =? 46)%nat) (list_ascii_of_string s).

(** ** Setting items *)

(** The properties of a [SettingItem] that the value contract reads and
    writes. [panel] is set by the constructor's caller in every use the module
    makes of the class. *)
Record SettingItem := mkItem {
  section : option string;
  key : option string;
  value : PyValue;
  panel : option PanelProps
}.

(** The property defaults: [StringProperty(None)], [ObjectProperty(None)]. *)
Definition item_defaults : SettingItem := mkItem None None VNone None.

Definition with_value (self : SettingItem) (v : PyValue) : SettingItem :=
  mkItem (section self) (key self) v (panel self).

Module SettingItem.
Section defs.

Context {St : Type} `{!ConfigStore St}.

(** Methods of an item run on the item and the shared objects. *)
Definition state : Type := SettingItem * World St.

Definition get_self : M state SettingItem := fun s => (Ret (fst s), s).
Definition put_self (self : SettingItem) : M state unit :=
  fun s => (Ret tt, (self, snd s)).

(** A call into the shared objects from a method of the item. *)
Definition in_world {A} (m : M (World St) A) : M state A :=
  fun s => let '(r, w) := m (snd s) in (r, (fst s, w)).

(** [SettingItem.on_value] *)
Definition on_value (value : PyValue) : M state unit :=
  self <- get_self ;;
  if negb (truthy (section self)) || negb (truthy (key self)) then ret tt
  else
    match panel self with
    | None => raise (Builtin AttributeError)
    | Some panel =>
        let value := if is_string value then value else VStr (py_str value) in
        in_world (SettingsPanel.set_value panel (section self) (key self) (py_str value))
    end.

(** Modelled from the spec: the observer behind the [value] property is in
    kivy.properties, not in this module. [self.value = v]: whenever the
    entry's value changes, that is when [v] differs from the value held,
    the new value is stored and then [on_value] runs; an assignment of
    an equal value does nothing. *)
Definition assign_value (v : PyValue) : M state unit :=
  self <- get_self ;;
  if py_eq (value self) v then ret tt
  else put_self (with_value self v) ;;; on_value v.

(** A keyword argument for a [StringProperty]: absent leaves the default,
    a string sets it; what the property does with another JSON value is
    not modelled. *)
Definition string_kwarg (name : string) (kwargs : dict) : M state (option string) :=
  match dict_get name kwargs with
  | None => ret None
  | Some (JStr s) => ret (Some s)
  | Some _ => unmodelled
  end.

(** [SettingItem.__init__(panel=panel, **kwargs)]: the base class sets the
    properties named by the keyword arguments, then the value is read.
    A [value] keyword would run [on_value] before the other properties
    are known to be set and is not modelled. *)
Definition __init__ (panel : PanelProps) (kwargs : dict) : M state unit :=
  match dict_get "value" kwargs with
  | Some _ => unmodelled
  | None =>
      sec <- string_kwarg "section" kwargs ;;
      k <- string_kwarg "key" kwargs ;;
      self <- get_self ;;
      put_self (mkItem sec k (value self) (Some panel)) ;;;
      v <- in_world (SettingsPanel.get_value panel sec k) ;;
      assign_value (match v with Some s => VStr s | None => VNone end)
  end.

End defs.

End SettingItem.

Module SettingNumeric.
Section defs.

Context {St : Type} `{!ConfigStore St}.

Definition of_conv {S A} (c : conv A) : M S A :=
  match c with
  | Converted a => ret a
  | Invalid => raise (Builtin ValueError)
  | NotCovered => unmodelled
  end.

(** [SettingNumeric._validate], with [text] the content of
    [self.textinput]. [self._dismiss()] closes the popup and touches none
    of the properties modelled here. *)
Definition _validate (text : string) : M (SettingItem.state (St := St)) unit :=
  self <- SettingItem.get_self ;;
  let is_float := has_point (py_str (value self)) in
  try_except
    (if is_float then
       f <- of_conv (py_float text) ;;
       SettingItem.assign_value (VStr (float_text f))
     else
       n <- of_conv (py_int text) ;;
       SettingItem.assign_value (VStr (int_text n)))
    ValueError
    (ret tt).

End defs.

End SettingNumeric.

(** ** [json.loads] *)

Module Json.

(** The blanks between JSON tokens: space, tab, line feed, carriage return. *)
Definition is_blank (c : ascii) : bool :=
  ((code c =? 32) || (code c =? 9) || (code c =? 10) || (code c =? 13))%nat.

Definition skip_blanks (l : list ascii) : list ascii := drop_while is_blank l.

(** [l] without the prefix [p], when it starts with it. *)
Fixpoint after_prefix (p l : list ascii) : option (list ascii) :=
  match p, l with
  | [], _ => Some l
  | c :: p', d :: l' => if (code c =? code d)%nat then after_prefix p' l' else None
  | _ :: _, [] => None
  end.

(** The characters of a string up to its closing quote. Escapes, control
    characters and bytes above ASCII are not read. *)
Fixpoint read_string (l : list ascii) : option (list ascii * list ascii) :=
  match l with
  | [] => None
  | c :: l' =>
      if (code c =? 34)%nat then Some ([], l')
      else if ((code c =? 92) || (code c <? 32) || (128 <=? code c))%nat then None
      else
        match read_string l' with
        | Some (s, r) => Some (c :: s, r)
        | None => None
        end
  end.

Fixpoint span_digits (l : list ascii) : list ascii * list ascii :=
  match l with
  | c :: l' =>
      if is_digit c then let '(d, r) := span_digits l' in (c :: d, r) else ([], l)
  | [] => ([], [])
  end.

(** An integer: an optional minus, then [0] or digits not starting with
    [0]; a fraction or an exponent after it is not read. *)
Definition read_int (l : list ascii) : option (Z * list ascii) :=
  let '(neg, l1) :=
    match l with
    | c :: l' => if (code c =? 45)%nat then (true, l') else (false, l)
    | [] => (false, l)
    end in
  let '(ds, r) := span_digits l1 in
  let well_formed :=
    match ds with
    | [] => false
    | c :: _ :: _ => negb (is_zero_digit c)
    | [_] => true
    end in
  let followed :=
    match r with
    | c :: _ => ((code c =? 46) || (code c =? 101) || (code c =? 69))%nat
    | [] => false
    end in
  if well_formed && negb followed
  then Some (if neg then - digits_value ds else digits_value ds, r)
  else None.

Fixpoint read_value (fuel : nat) (l : list ascii) {struct fuel}
  : option (json * list ascii) :=
  match fuel with
  | O => None
  | S fuel =>
      match skip_blanks l with
      | [] => None
      | c :: r =>
          if (code c =? 34)%nat then
            match read_string r with
            | Some (s, r') => Some (JStr (string_of_list_ascii s), r')
            | None => None
            end
          else if (code c =? 91)%nat then
            match skip_blanks r with
            | d :: r' =>
                if (code d =? 93)%nat then Some (JList [], r')
                else
                  match read_elements fuel r with
                  | Some (xs, r'') => Some (JList xs, r'')
                  | None => None
                  end
            | [] => None
            end
          else if (code c =? 123)%nat then
            match skip_blanks r with
            | d :: r' =>
                if (code d =? 125)%nat then Some (JObj [], r')
                else
                  match read_members fuel r [] with
                  | Some (d, r'') => Some (JObj d, r'')
                  | None => None
                  end
            | [] => None
            end
          else if (code c =? 45)%nat || is_digit c then
            match read_int (c :: r) with
            | Some (z, r') => Some (JInt z, r')
            | None => None
            end
          else
            match after_prefix (list_ascii_of_string "null") (c :: r),
                  after_prefix (list_ascii_of_string "true") (c :: r),
                  after_prefix (list_ascii_of_string "false") (c :: r) with
            | Some r', _, _ => Some (JNull, r')
            | _, Some r', _ => Some (JBool true, r')
            | _, _, Some r' => Some (JBool false, r')
            | _, _, _ => None
            end
      end
  end
(** One or more values separated by commas, up to the closing bracket. *)
with read_elements (fuel : nat) (l : list ascii) {struct fuel}
  : option (list json * list ascii) :=
  match fuel with
  | O => None
  | S fuel =>
      match read_value fuel l with
      | Some (x, r) =>
          match skip_blanks r with
          | c :: r' =>
              if (code c =? 93)%nat then Some ([x], r')
              else if (code c =? 44)%nat then
                match read_elements fuel r' with
                | Some (xs, r'') => Some (x :: xs, r'')
                | None => None
                end
              else None
          | [] => None
          end
      | None => None
      end
  end
(** One or more [key: value] pairs up to the closing brace; a repeated key
    keeps its last value, as in a [dict]. *)
with read_members (fuel : nat) (l : list ascii) (acc : dict) {struct fuel}
  : option (dict * list ascii) :=
  match fuel with
  | O => None
  | S fuel =>
      match skip_blanks l with
      | q :: r0 =>
          if (code q =? 34)%nat then
            match read_string r0 with
            | Some (k, r1) =>
                match skip_blanks r1 with
                | colon :: r2 =>
                    if (code colon =? 58)%nat then
                      match read_value fuel r2 with
                      | Some (v, r3) =>
                          let acc := dict_set (string_of_list_ascii k) v acc in
                          match skip_blanks r3 with
                          | c :: r4 =>
                              if (code c =? 125)%nat then Some (acc, r4)
                              else if (code c =? 44)%nat then read_members fuel r4 acc
                              else None
                          | [] => None
                          end
                      | None => None
                      end
                    else None
                | [] => None
                end
            | None => None
            end
          else None
      | [] => None
      end
  end.

(** [json.loads(text)] on the documents the reader covers; [None] is a
    document it does not read (malformed, or using what it leaves out). *)
Definition loads (text : string) : option json :=
  let l := list_ascii_of_string text in
  match read_value (2 * length l + 2) l with
  | Some (v, r) => match skip_blanks r with [] => Some v | _ :: _ => None end
  | None => None
  end.

End Json.

(** A quoted JSON string token, for writing documents. *)
Definition quoted (s : string) : string :=
  String (ascii_of_nat 34) s ++ String (ascii_of_nat 34) "".

(** ** The settings widget and its type registry *)

Inductive SettingClass :=
| SettingString | SettingBoolean | SettingNumeric
| SettingOptions | SettingTitle | SettingPath.

#[global] Instance SettingClass_eq_dec : EqDecision SettingClass.
Proof. solve_decision. Defined.

(** A widget built for one record: its class, the keyword arguments it was
    built with, and its [SettingItem] part (a [SettingTitle] is a [Label] and
    has none). *)
Record Instance := mkInstance {
  klass : SettingClass;
  kwargs : dict;
  item : option SettingItem
}.

(** A [SettingsPanel] with the widgets added to it. *)
Record Panel := mkPanel {
  props : PanelProps;
  children : list Instance
}.

Record Settings := mkSettings {
  uid : settings_ref;
  _types : gmap string SettingClass
}.

Module Settings.
Section defs.

Context {St : Type} `{!ConfigStore St}.

(** [Settings.register_type] *)
Definition register_type (self : Settings) (tp : string) (cls : SettingClass) : Settings :=
  mkSettings (uid self) (<[tp := cls]> (_types self)).

(** The registrations of [Settings.__init__], starting from [self._types = {}]. *)
Definition __init__ (uid : settings_ref) : Settings :=
  let self := mkSettings uid ∅ in
  let self := register_type self "string" SettingString in
  let self := register_type self "bool" SettingBoolean in
  let self := register_type self "numeric" SettingNumeric in
  let self := register_type self "options" SettingOptions in
  let self := register_type self "title" SettingTitle in
  register_type self "path" SettingPath.

(** [with open(filename, 'r') as fd: fd.read()] *)
Definition read_file (filename : string) : M (World St) string :=
  w <- get_state ;;
  match files w !! filename with
  | Some text => ret text
  | None => raise (Builtin IOError)
  end.

Definition json_loads (text : string) : M (World St) json :=
  match Json.loads text with
  | Some v => ret v
  | None => unmodelled
  end.

(** ['type' in setting], for whatever [json.loads] put in the list:
    a key of a dict, a substring of a string, an element of a list;
    the other values are not containers. *)
Definition contains_type (setting : json) : M (World St) bool :=
  match setting with
  | JObj d => ret (bool_decide (is_Some (dict_get "type" d)))
  | JStr s => ret (bool_decide (is_Some (String.index 0 "type" s)))
  | JList l =>
      ret (existsb (fun x => match x with JStr t => String.eqb t "type" | _ => false end) l)
  | JNull | JBool _ | JInt _ => raise (Builtin TypeError)
  end.

(** [self._types.get(ttype)]: the registry is keyed by strings; a list or
    a dict is unhashable. *)
Definition types_get (self : Settings) (ttype : json) : M (World St) (option SettingClass) :=
  match ttype with
  | JStr t => ret (_types self !! t)
  | JList _ | JObj _ => raise (Builtin TypeError)
  | JNull | JBool _ | JInt _ => ret None
  end.

(** [cls(panel=panel, **str_settings)]. Every class but [SettingTitle]
    derives from [SettingItem]; an object whose constructor raises is
    dropped. A [panel] key among the settings is a repeated keyword. *)
Definition instantiate (cls : SettingClass) (panel : PanelProps) (str_settings : dict)
  : M (World St) Instance :=
  match dict_get "panel" str_settings with
  | Some _ => raise (Builtin TypeError)
  | None =>
      match cls with
      | SettingTitle => ret (mkInstance cls str_settings None)
      | _ =>
          fun w =>
            match SettingItem.__init__ panel str_settings (item_defaults, w) with
            | (Ret _, (self, w')) => (Ret (mkInstance cls str_settings (Some self)), w')
            | (Raise e, (_, w')) => (Raise e, w')
            | (Unmodelled, (_, w')) => (Unmodelled, w')
            end
      end
  end.

(** The body of the loop of [create_json_panel] for one element. Keys of a
    JSON object are strings already, [str(key)] leaves them as they are. *)
Definition create_setting (self : Settings) (panel : PanelProps) (setting : json)
  : M (World St) Instance :=
  present <- contains_type setting ;;
  if negb present then raise MissingTypeElement
  else
    match setting with
    | JObj d =>
        match dict_get "type" d with
        | Some ttype =>
            cls <- types_get self ttype ;;
            match cls with
            | None => raise (NoClassRegistered ttype)
            | Some cls =>
                let str_settings := dict_del "type" d in
                instantiate cls panel str_settings
            end
        | None => raise (Builtin KeyError)
        end
    | _ => raise (Builtin TypeError)
    end.

(** Modelled from the spec: [panel.add_widget] is the layout's, not this
    module's; it appends the constructed entry to the panel, so that
    [children] is the display order. *)
Definition add_widget (panel : Panel) (instance : Instance) : Panel :=
  mkPanel (props panel) (children panel ++ [instance]).

(** [for setting in data: ...] *)
Fixpoint create_settings (self : Settings) (panel : Panel) (data : list json)
  : M (World St) Panel :=
  match data with
  | [] => ret panel
  | setting :: data' =>
      instance <- create_setting self (props panel) setting ;;
      create_settings self (add_widget panel instance) data'
  end.

(** [Settings.create_json_panel] *)
Definition create_json_panel (self : Settings) (title : string) (config : option cfg_ref)
    (filename data : option string) : M (World St) Panel :=
  match filename, data with
  | None, None => raise EitherFilenameOrData
  | _, _ => ret tt
  end ;;;
  data <- match filename with
          | Some filename => text <- read_file filename ;; json_loads text
          | None =>
              match data with
              | Some data => json_loads data
              | None => raise (Builtin TypeError)
              end
          end ;;
  match data with
  | JList data =>
      let panel := mkPanel (mkPanelProps title config (Some (uid self))) [] in
      create_settings self panel data
  | _ => raise FirstElementMustBeList
  end.

End defs.

End Settings.

(** ** Content panels *)

(** Widgets are told apart by identity. *)
Definition widget := nat.

(** A [ContentPanel]: the registered panels by uid, the children of its
    [container] ([None] while [container] is [None]), the children the
    scroll view holds itself, and the panel shown. *)
Record ContentPanel := mkContent {
  panels : gmap Z widget;
  container : option (list widget);
  own_children : list widget;
  current_panel : option widget;
  current_panel_uid : Z
}.

Module ContentPanel.

Definition set_container (self : ContentPanel) (ws : list widget) : ContentPanel :=
  mkContent (panels self) (Some ws) (own_children self)
            (current_panel self) (current_panel_uid self).

(** Modelled from the spec: attaching to and detaching from the container
    is kivy.uix.widget's. [add_widget] puts the widget in front of the
    children and refuses one that is already a child; [remove_widget]
    takes it out when it is there. Parents outside the content panel are
    not tracked. *)
Definition container_add_widget (w : widget) : M ContentPanel unit :=
  fun self =>
    match container self with
    | None => (Raise (Builtin AttributeError), self)
    | Some ws =>
        if bool_decide (w ∈ ws) then (Raise (Builtin WidgetException), self)
        else (Ret tt, set_container self (w :: ws))
    end.

Definition container_remove_widget (w : widget) : M ContentPanel unit :=
  fun self =>
    match container self with
    | None => (Raise (Builtin AttributeError), self)
    | Some ws => (Ret tt, set_container self (filter (fun x => x ≠ w) ws))
    end.

(** [super(ContentPanel, self).add_widget], the scroll view's: it takes its
    first child; a second one is not modelled. *)
Definition scrollview_add_widget (w : widget) : M ContentPanel unit :=
  fun self =>
    match own_children self with
    | [] => (Ret tt, mkContent (panels self) (container self) [w]
                       (current_panel self) (current_panel_uid self))
    | _ :: _ => (Unmodelled, self)
    end.

(** [ContentPanel.add_widget] *)
Definition add_widget (w : widget) : M ContentPanel unit :=
  self <- get_state ;;
  match container self with
  | None => scrollview_add_widget w
  | Some _ => container_add_widget w
  end.

(** [ContentPanel.remove_widget] *)
Definition remove_widget (w : widget) : M ContentPanel unit :=
  container_remove_widget w.

Section methods.

(** [self.add_widget], resolved on the class of [self]. *)
Variable self_add_widget : widget -> M ContentPanel unit.

(** [ContentPanel.switch_to_panel] *)
Definition switch_to_panel (uid : Z) : M ContentPanel bool :=
  self <- get_state ;;
  match panels self !! uid with
  | Some new_panel =>
      match current_panel self with
      | Some w => remove_widget w
      | None => ret tt
      end ;;;
      self_add_widget new_panel ;;;
      self <- get_state ;;
      put_state (mkContent (panels self) (container self) (own_children self)
                           (Some new_panel) uid) ;;;
      ret true
  | None => ret false
  end.

(** [ContentPanel.add_panel] *)
Definition add_panel (panel : widget) (name : string) (uid : Z) : M ContentPanel unit :=
  self <- get_state ;;
  put_state (mkContent (<[uid := panel]> (panels self)) (container self)
                       (own_children self) (current_panel self)
                       (current_panel_uid self)) ;;;
  self <- get_state ;;
  if bool_decide (current_panel_uid self = 0)
  then _ <- switch_to_panel uid ;; ret tt
  else ret tt.

End methods.

End ContentPanel.

Module ContentNoMenu.

(** [ContentNoMenu.add_widget] *)
Definition add_widget (w : widget) : M ContentPanel unit :=
  self <- get_state ;;
  match container self with
  | Some (_ :: _) => raise MoreThanOnePanel
  | _ => ContentPanel.add_widget w
  end.

(** The inherited methods, on an instance of [ContentNoMenu]. *)
Definition switch_to_panel := ContentPanel.switch_to_panel add_widget.
Definition add_panel := ContentPanel.add_panel add_widget.

End ContentNoMenu.

(** ** A ConfigParser to run the model on *)

(** Sections of key/value pairs in memory: no defaults section, no
    interpolation, [write] always succeeds. A missing section or option is
    the error of the ConfigParser. *)
Definition MemoryConfig := gmap string (gmap string string).

Definition memory_get (st : MemoryConfig) (section key : option string) : res string :=
  match section, key with
  | Some s, Some k =>
      match st !! s with
      | Some opts =>
          match opts !! k with
          | Some v => Done v
          | None => Fails (Builtin ConfigParserError)
          end
      | None => Fails (Builtin ConfigParserError)
      end
  | _, _ => Fails (Builtin ConfigParserError)
  end.

Definition memory_set (st : MemoryConfig) (section key : option string) (v : string)
  : res MemoryConfig :=
  match section, key with
  | Some s, Some k =>
      match st !! s with
      | Some opts => Done (<[s := <[k := v]> opts]> st)
      | None => Fails (Builtin ConfigParserError)
      end
  | _, _ => Fails (Builtin ConfigParserError)
  end.

#[global] Instance MemoryConfig_store : ConfigStore MemoryConfig := {
  store_get := memory_get;
  store_set := memory_set;
  store_write := fun st => Done st
}.

(** ** Example data *)

(** The [graphics] section of a configuration file. *)
Definition example_config : MemoryConfig :=
  {[ "graphics" := {[ "fullscreen" := "0"; "width" := "800"; "rotation" := "3.0" ]} ]}.

(** The example of the module's documentation, and a numeric setting. *)
Definition example_json : string :=
  "[ {" ++ quoted "type" ++ ": " ++ quoted "title" ++ ", "
        ++ quoted "title" ++ ": " ++ quoted "Windows" ++ "}, "
  ++ "{" ++ quoted "type" ++ ": " ++ quoted "bool" ++ ", "
        ++ quoted "title" ++ ": " ++ quoted "Fullscreen" ++ ", "
        ++ quoted "section" ++ ": " ++ quoted "graphics" ++ ", "
        ++ quoted "key" ++ ": " ++ quoted "fullscreen" ++ "}, "
  ++ "{" ++ quoted "type" ++ ": " ++ quoted "numeric" ++ ", "
        ++ quoted "section" ++ ": " ++ quoted "graphics" ++ ", "
        ++ quoted "key" ++ ": " ++ quoted "width" ++ "} ]".

(** A record with a type tag nobody registered. *)
Definition color_json : string :=
  "[ {" ++ quoted "type" ++ ": " ++ quoted "title" ++ "}, "
  ++ "{" ++ quoted "type" ++ ": " ++ quoted "color" ++ "} ]".

Definition example_world : World MemoryConfig :=
  mkWorld {[ 0%nat := example_config ]}
          {[ "settings.json" := example_json; "empty.json" := "[]" ]} [].

Definition example_panel : PanelProps := mkPanelProps "Graphics" (Some 0%nat) (Some 7%nat).

Definition fullscreen_item : SettingItem :=
  mkItem (Some "graphics") (Some "fullscreen") (VStr "0") (Some example_panel).
Definition width_item : SettingItem :=
  mkItem (Some "graphics") (Some "width") (VStr "800") (Some example_panel).
Definition rotation_item : SettingItem :=
  mkItem (Some "graphics") (Some "rotation") (VStr "3.0") (Some example_panel).

(** An empty [ContentNoMenu] after the kv rules ran: a container without
    children. *)
Definition empty_content : ContentPanel := mkContent ∅ (Some []) [] None 0.

(** The number of [ConfigParser.get] calls among the events. *)
Definition is_read (ev : Event) : bool :=
  match ev with ConfigGet _ _ _ => true | _ => false end.


(** The text [create_json_panel] parses: the content of the file when a
    filename is given, the data string otherwise. *)
Definition schema_text {St} (filename data : option string) (w : World St) : option string :=
  match filename with
  | Some f => files w !! f
  | None => data
  end.

(** [instance] is the widget for [record]: the record is an object whose
    type tag is registered to the class of the widget, and the widget was
    given the other keys of the record. *)
Definition built_from (self : Settings) (record : json) (instance : Instance) : Prop :=
  exists d tag,
    record = JObj d /\ dict_get "type" d = Some (JStr tag) /\
    _types self !! tag = Some (klass instance) /\
    kwargs instance = dict_del "type" d.

(** What is wrong with a record, if it lacks the type key or names a type
    nobody registered. *)
Definition record_error (self : Settings) (record : json) : option exn :=
  match record with
  | JObj d =>
      match dict_get "type" d with
      | None => Some MissingTypeElement
      | Some (JStr tag) =>
          match _types self !! tag with
          | None => Some (NoClassRegistered (JStr tag))
          | Some _ => None
          end
      | Some _ => None
      end
  | _ => None
  end.

(** ** The other setting classes *)

(** Characters that are blanks for a unicode string and not for a byte
    string: the separators [\x1c]-[\x1f], and whatever lies above ASCII. *)
Definition is_unsettled_blank (c : ascii) : bool :=
  (((28 <=? code c) && (code c <=? 31)) || (128 <=? code c))%nat.

Definition starts_unsettled (l : list ascii) : bool :=
  match l with
  | c :: _ => is_unsettled_blank c
  | [] => false
  end.

(** [text.strip()]; [None] when what is left starts or ends with a character
    that the interpreter may or may not take for a blank. *)
Definition py_strip (text : string) : option string :=
  let s := strip (list_ascii_of_string text) in
  if starts_unsettled s || starts_unsettled (rev s) then None
  else Some (string_of_list_ascii s).

Module SettingString.
Section defs.

Context {St : Type} `{!ConfigStore St}.

(** [SettingString._validate], with [text] the content of
    [self.textinput]; [self._dismiss()] closes the popup. *)
Definition _validate (text : string) : M (SettingItem.state (St := St)) unit :=
  match py_strip text with
  | Some value => SettingItem.assign_value (VStr value)
  | None => unmodelled
  end.

End defs.

End SettingString.

Module SettingPath.
Section defs.

Context {St : Type} `{!ConfigStore St}.

(** [os.path.realpath] depends on the links of the file system. *)
Variable realpath : string -> string.

(** [SettingPath._validate], with [selection] the selection of the file
    chooser kept in [self.textinput]. *)
Definition _validate (selection : list string) : M (SettingItem.state (St := St)) unit :=
  match selection with
  | [] => ret tt
  | first :: _ => SettingItem.assign_value (VStr (realpath first))
  end.

End defs.

End SettingPath.

(** ** Menus *)

Module MenuSpinner.

(** The two properties of the [Spinner] widget that the menu uses. *)
Record Spinner := mkSpinner {
  values : list string;
  text : string
}.

(** A [MenuSpinner] whose [spinner] is set. What the kv rules bind between
    [spinner.text] and [spinner_text] is outside this module. *)
Record MenuSpinner := mkMenu {
  selected_uid : Z;
  spinner : Spinner;
  panel_names : gmap string Z;
  spinner_text : string
}.

(** [name + ' {}'.format(i)] *)
Definition numbered (name : string) (i : Z) : string := name ++ " " ++ pretty i.

(** [while name + ' {}'.format(i) in values: i += 1], giving the final [i];
    [fuel] bounds the number of tests. *)
Fixpoint first_free (fuel : nat) (name : string) (values : list string) (i : Z)
  : option Z :=
  match fuel with
  | O => None
  | S fuel =>
      if bool_decide (numbered name i ∈ values)
      then first_free fuel name values (i + 1)
      else Some i
  end.

(** [MenuSpinner.add_item]. The loop is given one test more than there are
    values, which is enough (see [first_free_found]). *)
Definition add_item (name : string) (uid : Z) : M MenuSpinner unit :=
  self <- get_state ;;
  let values := values (spinner self) in
  name <- (if bool_decide (name ∈ values) then
             match first_free (S (length values)) name values 2 with
             | Some i => ret (numbered name i)
             | None => unmodelled
             end
           else ret name) ;;
  put_state
    (mkMenu (selected_uid self)
            (mkSpinner (values ++ [name])
                       (if bool_decide (text (spinner self) = "") then name
                        else text (spinner self)))
            (<[name := uid]> (panel_names self))
            (spinner_text self)).

(** [MenuSpinner.on_spinner_text] *)
Definition on_spinner_text : M MenuSpinner unit :=
  self <- get_state ;;
  match panel_names self !! spinner_text self with
  | Some uid => put_state (mkMenu uid (spinner self) (panel_names self) (spinner_text self))
  | None => raise (Builtin KeyError)
  end.

(** The display has changed to [text]: the property follows, then its
    handler runs. *)
Definition show_text (text : string) : M MenuSpinner unit :=
  self <- get_state ;;
  put_state (mkMenu (selected_uid self) (spinner self) (panel_names self) text) ;;;
  on_spinner_text.

End MenuSpinner.

Module MenuSidebar.

(** A [SettingSidebarLabel]. *)
Record Label := mkLabel {
  text : string;
  uid : Z;
  selected : bool
}.

(** A [MenuSidebar]: [buttons_layout] is [None] or the children of the
    layout, newest first. *)
Record MenuSidebar := mkMenu {
  selected_uid : Z;
  buttons_layout : option (list Label)
}.

(** [MenuSidebar.on_selected_uid] *)
Definition on_selected_uid : M MenuSidebar unit :=
  self <- get_state ;;
  match buttons_layout self with
  | None => raise (Builtin AttributeError)
  | Some children =>
      put_state
        (mkMenu (selected_uid self)
                (Some (map (fun button =>
                              if bool_decide (uid button ≠ selected_uid self)
                              then mkLabel (text button) (uid button) false
                              else button)
                           children)))
  end.

(** Modelled from the spec: [self.selected_uid = v] goes through the
    observer of kivy.properties, as the assignment of a setting's value
    does: the handler runs whenever the value changes. *)
Definition assign_selected_uid (v : Z) : M MenuSidebar unit :=
  self <- get_state ;;
  if bool_decide (selected_uid self = v) then ret tt
  else put_state (mkMenu v (buttons_layout self)) ;;; on_selected_uid.

(** [MenuSidebar.add_item]: the length of the children is taken before
    [buttons_layout] is compared with [None]. *)
Definition add_item (name : string) (uid : Z) : M MenuSidebar unit :=
  self <- get_state ;;
  let label := mkLabel name uid false in
  match buttons_layout self with
  | None => raise (Builtin AttributeError)
  | Some children =>
      let label := if bool_decide (length children = 0%nat)
                   then mkLabel name uid true else label in
      put_state (mkMenu (selected_uid self) (Some (label :: children)))
  end.

(** [SettingSidebarLabel.on_touch_down] on the label at position [i] of the
    layout, [collides] telling whether the touch is inside the label. *)
Definition on_touch_down (i : nat) (collides : bool) : M MenuSidebar unit :=
  self <- get_state ;;
  match buttons_layout self with
  | None => unmodelled
  | Some children =>
      match children !! i with
      | None => unmodelled
      | Some label =>
          if negb collides then ret tt
          else
            put_state
              (mkMenu (selected_uid self)
                      (Some (<[i := mkLabel (text label) (uid label) true]> children))) ;;;
            assign_selected_uid (uid label)
      end
  end.

(** The lines of [Settings.add_json_panel] that act on [self.menu]. *)
Definition add_json_panel (title : string) (uid : Z) : M MenuSidebar unit :=
  self <- get_state ;;
  (if bool_decide (selected_uid self = 0) then assign_selected_uid uid else ret tt) ;;;
  add_item title uid.

(** What happens to a menu. *)
Inductive Call :=
| AddPanel (title : string) (uid : Z)
| Touch (i : nat) (collides : bool).

Definition call (c : Call) : M MenuSidebar unit :=
  match c with
  | AddPanel title uid => add_json_panel title uid
  | Touch i collides => on_touch_down i collides
  end.

Fixpoint calls (cs : list Call) : M MenuSidebar unit :=
  match cs with
  | [] => ret tt
  | c :: cs => call c ;;; calls cs
  end.

(** Every selected label carries the selected uid, and an empty layout has
    nothing selected. *)
Definition consistent (self : MenuSidebar) : Prop :=
  exists children,
    buttons_layout self = Some children /\
    (children = [] -> selected_uid self = 0) /\
    Forall (fun b => selected b = true -> uid b = selected_uid self) children.

End MenuSidebar.

(** ** Sequences of calls on a content panel *)

Inductive ContentCall :=
| AddPanel (panel : widget) (name : string) (uid : Z)
| SwitchTo (uid : Z).

Section content_calls.

(** [self.add_widget], resolved on the class of the content panel. *)
Variable self_add_widget : widget -> M ContentPanel unit.

Definition content_call (c : ContentCall) : M ContentPanel unit :=
  match c with
  | AddPanel panel name uid => ContentPanel.add_panel self_add_widget panel name uid
  | SwitchTo uid => _ <- ContentPanel.switch_to_panel self_add_widget uid ;; ret tt
  end.

Fixpoint content_calls (cs : list ContentCall) : M ContentPanel unit :=
  match cs with
  | [] => ret tt
  | c :: cs => content_call c ;;; content_calls cs
  end.

End content_calls.

(** The container holds the panel shown, and nothing else. *)
Definition shows_current (self : ContentPanel) : Prop :=
  container self = Some (match current_panel self with
                         | Some p => [p]
                         | None => []
                         end).

(** ** A ConfigParser that can refuse *)

(** A [MemoryConfig] behind two switches: [set] raises unless [settable],
    [write] raises unless [writable] (a file that cannot be written). *)
Record GuardedConfig := mkGuarded {
  contents : MemoryConfig;
  settable : bool;
  writable : bool
}.

#[global] Instance GuardedConfig_store : ConfigStore GuardedConfig := {
  store_get := fun st => memory_get (contents st);
  store_set := fun st section key v =>
    if settable st then
      match memory_set (contents st) section key v with
      | Done m => Done (mkGuarded m (settable st) (writable st))
      | Fails e => Fails e
      end
    else Fails (Builtin ValueError);
  store_write := fun st => if writable st then Done st else Fails (Builtin IOError)
}.

(** ** What a run did to the shared objects *)

(** From [w] to [w'] the ConfigParsers and the files are the same, and the
    calls made are reads. *)
Definition only_reads {St} (w w' : World St) : Prop :=
  configs w' = configs w /\ files w' = files w /\
  exists evs, log w' = (log w ++ evs)%list /\ Forall (fun ev => is_read ev = true) evs.

(** [it] is attached to panel [p] and holds what the ConfigParser of the
    panel has for its section and key ([None] without a ConfigParser). *)
Definition holds_stored {St} `{!ConfigStore St} (cfgs : gmap cfg_ref St)
    (p : PanelProps) (it : SettingItem) : Prop :=
  panel it = Some p /\
  match config p with
  | None => value it = VNone
  | Some c =>
      exists st v, cfgs !! c = Some st /\
                   store_get st (section it) (key it) = Done v /\
                   value it = VStr v
  end.

(** A widget of a loaded panel: an item that holds the stored value, or a
    title. *)
Definition well_built {St} `{!ConfigStore St} (cfgs : gmap cfg_ref St)
    (p : PanelProps) (instance : Instance) : Prop :=
  match item instance with
  | Some it => holds_stored cfgs p it
  | None => klass instance = SettingTitle
  end.

(** Every name of [panel_names] is one of the values of the spinner. *)
Definition names_listed (self : MenuSpinner.MenuSpinner) : Prop :=
  forall k, is_Some (MenuSpinner.panel_names self !! k) ->
            k ∈ MenuSpinner.values (MenuSpinner.spinner self).

(** The labels after [on_selected_uid] ran with [v] selected. *)
Definition deselect_others (v : Z) (children : list MenuSidebar.Label)
  : list MenuSidebar.Label :=
  map (fun button => if bool_decide (MenuSidebar.uid button ≠ v)
                     then MenuSidebar.mkLabel (MenuSidebar.text button)
                                              (MenuSidebar.uid button) false
                     else button)
      children.

(** The table of the module's documentation: the type names of the JSON
    format and the class each stands for. *)
Definition documented_class (tag : string) : option SettingClass :=
  if String.eqb tag "title" then Some SettingTitle
  else if String.eqb tag "bool" then Some SettingBoolean
  else if String.eqb tag "numeric" then Some SettingNumeric
  else if String.eqb tag "options" then Some SettingOptions
  else if String.eqb tag "string" then Some SettingString
  else if String.eqb tag "path" then Some SettingPath
  else None.

(** ** More example data *)

(** The example configuration behind the two switches. *)
Definition guarded_world (settable writable : bool) : World GuardedConfig :=
  mkWorld {[ 0%nat := mkGuarded example_config settable writable ]} ∅ [].

(** A panel built without a Settings widget. *)
Definition bare_panel : PanelProps := mkPanelProps "Graphics" (Some 0%nat) None.

(** An item without section and key. *)
Definition unbound_item : SettingItem :=
  mkItem None None (VStr "Windows") (Some example_panel).

(** A content panel with two panels registered, the first one shown. *)
Definition shown_content : ContentPanel :=
  mkContent {[ 1 := 10%nat; 2 := 11%nat ]} (Some [10%nat]) [] (Some 10%nat) 1.

(** A spinner menu after two panels called Kivy were added. *)
Definition example_spinner : MenuSpinner.MenuSpinner :=
  MenuSpinner.mkMenu 0 (MenuSpinner.mkSpinner ["Kivy"; "Kivy 2"] "Kivy")
                     {[ "Kivy" := 1; "Kivy 2" := 2 ]} "Kivy".

(** A sidebar with two labels, the older one selected. *)
Definition example_sidebar : MenuSidebar.MenuSidebar :=
  MenuSidebar.mkMenu 1 (Some [MenuSidebar.mkLabel "Second" 2 false;
                              MenuSidebar.mkLabel "First" 1 true]).

(** * Properties *)

Section store_calls.

Context {St : Type} `{!ConfigStore St}.
Implicit Types (w : World St) (st : St) (c : cfg_ref) (p : PanelProps).

Lemma config_get_done w c st sec k v :
  configs w !! c = Some st ->
  store_get st sec k = Done v ->
  SettingsPanel.config_get c sec k w
  = (Ret v, mkWorld (configs w) (files w) (log w ++ [ConfigGet c sec k])).
Proof.
  intros Hc Hg. unfold SettingsPanel.config_get, SettingsPanel.with_config, bind.
  simpl. rewrite Hc, Hg. reflexivity.
Qed.

Lemma config_set_done w c st sec k v st' :
  configs w !! c = Some st ->
  store_set st sec k v = Done st' ->
  SettingsPanel.config_set c sec k v w
  = (Ret tt, mkWorld (<[c := st']> (configs w)) (files w)
                     (log w ++ [ConfigSet c sec k v])).
Proof.
  intros Hc Hs. unfold SettingsPanel.config_set, SettingsPanel.with_config, bind.
  simpl. rewrite Hc, Hs. reflexivity.
Qed.

Lemma config_write_done w c st st' :
  configs w !! c = Some st ->
  store_write st = Done st' ->
  SettingsPanel.config_write c w
  = (Ret tt, mkWorld (<[c := st']> (configs w)) (files w) (log w ++ [ConfigWrite c])).
Proof.
  intros Hc Hs. unfold SettingsPanel.config_write, SettingsPanel.with_config, bind.
  simpl. rewrite Hc, Hs. reflexivity.
Qed.

Lemma get_value_attached w p c st sec k v :
  config p = Some c ->
  configs w !! c = Some st ->
  store_get st sec k = Done v ->
  SettingsPanel.get_value p sec k w
  = (Ret (Some v), mkWorld (configs w) (files w) (log w ++ [ConfigGet c sec k])).
Proof.
  intros Hp Hc Hg. unfold SettingsPanel.get_value. rewrite Hp. unfold bind.
  rewrite (config_get_done w c st sec k v Hc Hg). reflexivity.
Qed.

(** The stored value equals the new one: a read, and nothing else. *)
Lemma set_value_same w p c st sec k v :
  config p = Some c ->
  configs w !! c = Some st ->
  store_get st sec k = Done v ->
  SettingsPanel.set_value p sec k v w
  = (Ret tt, mkWorld (configs w) (files w) (log w ++ [ConfigGet c sec k])).
Proof.
  intros Hp Hc Hg. unfold SettingsPanel.set_value, bind.
  rewrite (get_value_attached w p c st sec k v Hp Hc Hg).
  rewrite bool_decide_eq_true_2 by reflexivity. reflexivity.
Qed.

(** The stored value differs: read, set, write, notify. *)
Lemma set_value_changed w p c s st sec k cur v st1 st2 :
  config p = Some c ->
  settings p = Some s ->
  configs w !! c = Some st ->
  store_get st sec k = Done cur ->
  cur <> v ->
  store_set st sec k v = Done st1 ->
  store_write st1 = Done st2 ->
  SettingsPanel.set_value p sec k v w
  = (Ret tt,
     mkWorld (<[c := st2]> (configs w)) (files w)
             (log w ++ [ConfigGet c sec k; ConfigSet c sec k v; ConfigWrite c;
                        OnConfigChange s (Some c) sec k v])).
Proof.
  intros Hp Hs Hc Hg Hne Hset Hwr. unfold SettingsPanel.set_value, bind.
  rewrite (get_value_attached w p c st sec k cur Hp Hc Hg).
  rewrite bool_decide_eq_false_2 by congruence.
  rewrite Hp, Hs.
  rewrite (config_set_done (mkWorld (configs w) (files w) _) c st sec k v st1 Hc Hset).
  rewrite (config_write_done (mkWorld (<[c := st1]> (configs w)) (files w) _)
             c st1 st2 (lookup_insert_eq _ _ _) Hwr).
  unfold SettingsPanel.dispatch_on_config_change, SettingsPanel.emit. simpl.
  rewrite insert_insert_eq. repeat rewrite <- app_assoc. reflexivity.
Qed.

(** No ConfigParser: nothing to read or write, the notification is sent. *)
Lemma set_value_no_config w p s sec k v :
  config p = None ->
  settings p = Some s ->
  SettingsPanel.set_value p sec k v w
  = (Ret tt, mkWorld (configs w) (files w)
                     (log w ++ [OnConfigChange s None sec k v])).
Proof.
  intros Hp Hs. unfold SettingsPanel.set_value, SettingsPanel.get_value, bind.
  rewrite Hp, Hs. simpl. reflexivity.
Qed.

Lemma truthy_Some (s : string) : s <> "" -> truthy (Some s) = true.
Proof. destruct s; [congruence | reflexivity]. Qed.

(** [on_value] on a bound item is [set_value] on the text of the value. *)
Lemma on_value_bound (self : SettingItem) w p sec k v :
  section self = Some sec -> key self = Some k -> sec <> "" -> k <> "" ->
  panel self = Some p ->
  SettingItem.on_value v (self, w)
  = SettingItem.in_world
      (SettingsPanel.set_value p (Some sec) (Some k) (py_str v)) (self, w).
Proof.
  intros Hs Hk Hs' Hk' Hp. unfold SettingItem.on_value, bind. simpl.
  rewrite Hs, Hk, Hp, !truthy_Some by assumption. simpl.
  destruct v; reflexivity.
Qed.

End store_calls.

(** ** The value contract of a setting item *)

Section value_contract.

Context {St : Type} `{!ConfigStore St}.
Implicit Types (w : World St) (st : St) (c : cfg_ref) (p : PanelProps)
               (self : SettingItem).

(** C1: for an item bound to (section, key), on a panel with a ConfigParser
    and a Settings widget, committing a value whose text differs from the
    stored one makes one [set], then one [write], then one
    [on_config_change] carrying (config, section, key, new value), in that
    order, after the read that compares; this holds for the handler
    [on_value] and for an assignment that changes the property. *)
Theorem commit_changed_value self w p c s st sec k v cur st1 st2 :
  section self = Some sec -> key self = Some k -> sec <> "" -> k <> "" ->
  panel self = Some p -> config p = Some c -> settings p = Some s ->
  configs w !! c = Some st ->
  store_get st (Some sec) (Some k) = Done cur ->
  cur <> py_str v ->
  store_set st (Some sec) (Some k) (py_str v) = Done st1 ->
  store_write st1 = Done st2 ->
  let w' := mkWorld (<[c := st2]> (configs w)) (files w)
              (log w ++ [ConfigGet c (Some sec) (Some k);
                         ConfigSet c (Some sec) (Some k) (py_str v);
                         ConfigWrite c;
                         OnConfigChange s (Some c) (Some sec) (Some k) (py_str v)]) in
  SettingItem.on_value v (self, w) = (Ret tt, (self, w')) /\
  (py_eq (value self) v = false ->
   SettingItem.assign_value v (self, w) = (Ret tt, (with_value self v, w'))).
Proof.
  intros Hsec Hkey Hs Hk Hp Hc Hset Hw Hget Hne Hst1 Hst2 w'.
  assert (Hon : forall self', section self' = Some sec -> key self' = Some k ->
                  panel self' = Some p ->
                  SettingItem.on_value v (self', w) = (Ret tt, (self', w'))).
  { intros self' H1 H2 H3.
    rewrite (on_value_bound self' w p sec k v) by assumption.
    unfold SettingItem.in_world. simpl.
    rewrite (set_value_changed w p c s st (Some sec) (Some k) cur (py_str v) st1 st2)
      by assumption.
    reflexivity. }
  split; [apply Hon; assumption |].
  intros Hneq. unfold SettingItem.assign_value, bind. simpl. rewrite Hneq.
  unfold SettingItem.put_self. simpl.
  rewrite (Hon (with_value self v)) by assumption. reflexivity.
Qed.

(** C2: for an item bound to (section, key), committing a value whose text
    equals the stored one makes no [set], no [write] and no notification:
    the only call is the read that compares. An assignment either leaves
    the property alone, or changes it and makes that one read. *)
Theorem commit_same_value self w p c st sec k v :
  section self = Some sec -> key self = Some k -> sec <> "" -> k <> "" ->
  panel self = Some p -> config p = Some c ->
  configs w !! c = Some st ->
  store_get st (Some sec) (Some k) = Done (py_str v) ->
  let w' := mkWorld (configs w) (files w)
              (log w ++ [ConfigGet c (Some sec) (Some k)]) in
  SettingItem.on_value v (self, w) = (Ret tt, (self, w')) /\
  SettingItem.assign_value v (self, w)
  = (Ret tt, if py_eq (value self) v then (self, w) else (with_value self v, w')).
Proof.
  intros Hsec Hkey Hs Hk Hp Hc Hw Hget w'.
  assert (Hon : forall self', section self' = Some sec -> key self' = Some k ->
                  panel self' = Some p ->
                  SettingItem.on_value v (self', w) = (Ret tt, (self', w'))).
  { intros self' H1 H2 H3.
    rewrite (on_value_bound self' w p sec k v) by assumption.
    unfold SettingItem.in_world. simpl.
    rewrite (set_value_same w p c st (Some sec) (Some k) (py_str v)) by assumption.
    reflexivity. }
  split; [apply Hon; assumption |].
  unfold SettingItem.assign_value, bind. simpl.
  destruct (py_eq (value self) v); [reflexivity |].
  unfold SettingItem.put_self. simpl.
  rewrite (Hon (with_value self v)) by assumption. reflexivity.
Qed.

(** C10: on a panel without a ConfigParser, [get_value] returns no stored
    value without a call, and [set_value] makes no read, no [set] and no
    [write], yet dispatches [on_config_change] with the new value (and
    [None] for the config) to the Settings widget; so does the commit of
    any value on a bound item of such a panel. *)
Theorem set_value_without_config w p s sec k v :
  config p = None -> settings p = Some s ->
  SettingsPanel.get_value p sec k w = (Ret None, w) /\
  SettingsPanel.set_value p sec k v w
  = (Ret tt, mkWorld (configs w) (files w)
                     (log w ++ [OnConfigChange s None sec k v])) /\
  (forall self s' k' x,
      section self = Some s' -> key self = Some k' -> s' <> "" -> k' <> "" ->
      panel self = Some p ->
      SettingItem.on_value x (self, w)
      = (Ret tt, (self, mkWorld (configs w) (files w)
                          (log w ++ [OnConfigChange s None (Some s') (Some k') (py_str x)])))).
Proof.
  intros Hc Hs. split; [| split].
  - unfold SettingsPanel.get_value. rewrite Hc. reflexivity.
  - apply set_value_no_config; assumption.
  - intros self s' k' x H1 H2 H3 H4 H5.
    rewrite (on_value_bound self w p s' k' x) by assumption.
    unfold SettingItem.in_world. simpl.
    rewrite (set_value_no_config w p s) by assumption. reflexivity.
Qed.


End value_contract.

(** ** Numeric settings *)

Lemma has_point_app (l1 l2 : list ascii) :
  has_point (string_of_list_ascii (l1 ++ "."%char :: l2)) = true.
Proof.
  unfold has_point. rewrite list_ascii_of_string_of_list_ascii.
  rewrite existsb_app. simpl. apply orb_true_r.
Qed.

(** The text of a float in fixed notation shows a point. *)
Lemma fixed_text_has_point (negative : bool) (a b : list ascii) :
  has_point (float_text (Fixed negative a b)) = true.
Proof.
  unfold float_text. rewrite app_assoc. apply has_point_app.
Qed.

Lemma py_eq_VStr (a : PyValue) (s : string) : py_eq a (VStr s) = true -> a = VStr s.
Proof.
  destruct a; simpl; try discriminate.
  intros H. apply bool_decide_eq_true_1 in H. congruence.
Qed.

Section numeric.

Context {St : Type} `{!ConfigStore St}.
Implicit Types (w : World St) (self : SettingItem).

(** [on_value] reads the item and does not change it. *)
Lemma on_value_self self w v :
  fst (snd (SettingItem.on_value v (self, w))) = self.
Proof.
  unfold SettingItem.on_value, bind. simpl.
  destruct (negb (truthy (section self)) || negb (truthy (key self))); [reflexivity |].
  destruct (panel self); [| reflexivity].
  unfold SettingItem.in_world. simpl.
  destruct (SettingsPanel.set_value _ _ _ _ w). reflexivity.
Qed.

(** After [self.value = s] the property holds [s], whatever the handler
    did. *)
Lemma assign_value_holds self w (s : string) :
  value (fst (snd (SettingItem.assign_value (VStr s) (self, w)))) = VStr s.
Proof.
  unfold SettingItem.assign_value, bind. simpl.
  destruct (py_eq (value self) (VStr s)) eqn:E.
  - simpl. apply py_eq_VStr. exact E.
  - unfold SettingItem.put_self. simpl.
    pose proof (on_value_self (with_value self (VStr s)) w (VStr s)) as Hs.
    destruct (SettingItem.on_value (VStr s) (with_value self (VStr s), w))
      as [[ | | ] [self' w']]; simpl in *; subst self'; reflexivity.
Qed.

(** [except ValueError: return] keeps the state the body reached. *)
Lemma try_except_return_state {S} (body : M S unit) (s : S) :
  snd (try_except body ValueError (ret tt) s) = snd (body s).
Proof.
  unfold try_except. destruct (body s) as [[ | e | ] s']; try reflexivity.
  simpl. destruct (bool_decide (class_of e = ValueError)); reflexivity.
Qed.

Lemma validate_int self w text n :
  has_point (py_str (value self)) = false ->
  py_int text = Converted n ->
  value (fst (snd (SettingNumeric._validate text (self, w)))) = VStr (int_text n).
Proof.
  intros Hp Hn. unfold SettingNumeric._validate, bind at 1. simpl.
  rewrite Hp, try_except_return_state, Hn.
  unfold bind, SettingNumeric.of_conv, ret.
  apply assign_value_holds.
Qed.

Lemma validate_float self w text f :
  has_point (py_str (value self)) = true ->
  py_float text = Converted f ->
  value (fst (snd (SettingNumeric._validate text (self, w)))) = VStr (float_text f).
Proof.
  intros Hp Hf. unfold SettingNumeric._validate, bind at 1. simpl.
  rewrite Hp, try_except_return_state, Hf.
  unfold bind, SettingNumeric.of_conv, ret.
  apply assign_value_holds.
Qed.

Lemma validate_rejected self w text :
  (if has_point (py_str (value self))
   then py_float text = Invalid else py_int text = Invalid) ->
  SettingNumeric._validate text (self, w) = (Ret tt, (self, w)).
Proof.
  intros H. unfold SettingNumeric._validate, bind at 1. simpl.
  destruct (has_point (py_str (value self))); rewrite H; reflexivity.
Qed.

End numeric.

(** C5: a numeric item whose value shows no point reads the input with
    [int] (from 3, input 5 gives 5); one whose value shows a point reads it
    with [float] and a plain decimal keeps the point (from 3.0, input 5 gives
    5.0); an input that does not parse (abc) leaves the item and the
    ConfigParser as they were. But the text of the float read is not always
    written with a point: from 3.0 the inputs 1e16, 0.00001, inf and nan
    are committed as 1e+16, 1e-05, inf and nan, and the item, now without a
    point, reads the next input 5 with [int], giving 5 and not 5.0; even
    the same input of digits, entered twice, is then committed twice. *)
Theorem float_setting_loses_its_point :
  let after text := SettingNumeric._validate text (rotation_item, example_world) in
  let value_after (r : outcome unit * (SettingItem * World MemoryConfig)) :=
    value (fst (snd r)) in
  value_after (SettingNumeric._validate "5" (width_item, example_world)) = VStr "5" /\
  value_after (after "5") = VStr "5.0" /\
  after "abc" = (Ret tt, (rotation_item, example_world)) /\
  value_after (after "1e16") = VStr "1e+16" /\
  value_after (after "0.00001") = VStr "1e-05" /\
  value_after (after "inf") = VStr "inf" /\
  value_after (after "nan") = VStr "nan" /\
  has_point "1e+16" = false /\
  value_after (SettingNumeric._validate "5" (snd (after "1e16"))) = VStr "5" /\
  value_after (after "100000000000000000000") = VStr "1e+20" /\
  value_after (SettingNumeric._validate "100000000000000000000"
                 (snd (after "100000000000000000000")))
  = VStr "100000000000000000000".
Proof. repeat split; vm_compute; reflexivity. Qed.

(** ** Loading a panel from JSON *)

Section loader.

Context {St : Type} `{!ConfigStore St}.
Implicit Types (w : World St) (self : Settings) (panel : Panel).

Lemma instantiate_ret cls props kw w inst w' :
  Settings.instantiate cls props kw w = (Ret inst, w') ->
  klass inst = cls /\ kwargs inst = kw.
Proof.
  unfold Settings.instantiate. destruct (dict_get "panel" kw); [discriminate |].
  destruct cls;
    try destruct (SettingItem.__init__ props kw (item_defaults, w))
      as [[ | | ] [self' w'']];
    intros [= <- <-]; split; reflexivity.
Qed.

Lemma create_setting_ret self props record w inst w' :
  Settings.create_setting self props record w = (Ret inst, w') ->
  built_from self record inst.
Proof.
  unfold Settings.create_setting, bind.
  destruct record as [ | b | z | s | l | d]; simpl; try discriminate.
  - destruct (bool_decide _); discriminate.
  - destruct (existsb _ l); discriminate.
  - destruct (dict_get "type" d) as [ttype |] eqn:Ht.
    + rewrite bool_decide_eq_true_2 by eauto. simpl.
      destruct ttype as [ | b | z | tag | l | d']; simpl; try discriminate.
      destruct (_types self !! tag) as [cls |] eqn:Hc; [| discriminate].
      intros Hi. apply instantiate_ret in Hi as [Hk Hkw].
      exists d, tag. rewrite Hk. auto.
    + rewrite bool_decide_eq_false_2 by (intros [? ?]; discriminate). discriminate.
Qed.

(** A record that lacks its type, or names an unknown one, raises before
    anything is built or called. *)
Lemma create_setting_error self props record w e :
  record_error self record = Some e ->
  Settings.create_setting self props record w = (Raise e, w).
Proof.
  unfold record_error, Settings.create_setting, bind.
  destruct record as [ | b | z | s | l | d]; try discriminate. simpl.
  destruct (dict_get "type" d) as [ttype |] eqn:Ht.
  - rewrite bool_decide_eq_true_2 by eauto. simpl.
    destruct ttype as [ | b | z | tag | l | d']; try discriminate. simpl.
    destruct (_types self !! tag); [discriminate |]. intros [= <-]. reflexivity.
  - rewrite bool_decide_eq_false_2 by (intros [? ?]; discriminate).
    intros [= <-]. reflexivity.
Qed.

Lemma create_settings_app self panel l1 l2 w :
  Settings.create_settings self panel (l1 ++ l2) w
  = bind (Settings.create_settings self panel l1)
         (fun panel1 => Settings.create_settings self panel1 l2) w.
Proof.
  revert panel w. induction l1 as [| x l1 IH]; intros panel w; [reflexivity |].
  simpl. unfold bind in *.
  destruct (Settings.create_setting self (props panel) x w) as [[inst | e | ] w1];
    [| reflexivity | reflexivity].
  rewrite IH. reflexivity.
Qed.

Lemma create_settings_ret self panel data w p w' :
  Settings.create_settings self panel data w = (Ret p, w') ->
  props p = props panel /\
  exists instances,
    children p = (children panel ++ instances)%list /\
    Forall2 (built_from self) data instances.
Proof.
  revert panel w. induction data as [| x data IH]; intros panel w; simpl.
  - intros [= <- <-]. split; [reflexivity |]. exists [].
    rewrite app_nil_r. split; [reflexivity | constructor].
  - unfold bind.
    destruct (Settings.create_setting self (props panel) x w)
      as [[inst | e | ] w1] eqn:Hx; try discriminate.
    intros Hrest. apply IH in Hrest as [Hp (instances & Hc & Hall)]. simpl in *.
    split; [exact Hp |]. exists (inst :: instances). split.
    + rewrite Hc, <- app_assoc. reflexivity.
    + constructor; [eapply create_setting_ret; exact Hx | exact Hall].
Qed.

(** What [create_json_panel] does once the document is a list. *)
Lemma create_json_panel_list self title config filename data w text records :
  schema_text filename data w = Some text ->
  Json.loads text = Some (JList records) ->
  Settings.create_json_panel self title config filename data w
  = Settings.create_settings self
      (mkPanel (mkPanelProps title config (Some (uid self))) []) records w.
Proof.
  unfold schema_text, Settings.create_json_panel, Settings.read_file,
    Settings.json_loads, bind.
  destruct filename as [f |], data as [d |]; simpl; try discriminate;
    intros Hf Hl; try injection Hf as ->; try rewrite Hf; simpl;
    rewrite Hl; reflexivity.
Qed.

(** The document read, when the load returned. *)
Lemma create_json_panel_ret_text self title config filename data w p w' :
  Settings.create_json_panel self title config filename data w = (Ret p, w') ->
  exists text records,
    schema_text filename data w = Some text /\
    Json.loads text = Some (JList records).
Proof.
  unfold schema_text, Settings.create_json_panel, Settings.read_file,
    Settings.json_loads, bind.
  destruct filename as [f |], data as [d |]; simpl; try discriminate.
  - destruct (files w !! f) as [text |]; simpl; [| discriminate].
    destruct (Json.loads text) as [[ | | | | records | ] |] eqn:Hl; try discriminate.
    intros _. exists text, records. auto.
  - destruct (files w !! f) as [text |]; simpl; [| discriminate].
    destruct (Json.loads text) as [[ | | | | records | ] |] eqn:Hl; try discriminate.
    intros _. exists text, records. auto.
  - destruct (Json.loads d) as [[ | | | | records | ] |] eqn:Hl; try discriminate.
    intros _. exists d, records. auto.
Qed.
(** C3: when a schema loads, the widgets of the panel are, position by
    position, the widgets built for the records of the schema: there are as
    many, and the one at index i was built from the record at index i
    (its class is the one registered for the record's type, its keyword
    arguments are the record's other keys). *)
Theorem panel_keeps_schema_order self title config filename data w p w' :
  Settings.create_json_panel self title config filename data w = (Ret p, w') ->
  exists text records,
    schema_text filename data w = Some text /\
    Json.loads text = Some (JList records) /\
    length (children p) = length records /\
    forall (i : nat) record,
      records !! i = Some record ->
      exists instance, children p !! i = Some instance /\
                       built_from self record instance.
Proof.
  intros Hret.
  destruct (create_json_panel_ret_text _ _ _ _ _ _ _ _ Hret)
    as (text & records & Ht & Hl).
  exists text, records. split; [exact Ht |]. split; [exact Hl |].
  rewrite (create_json_panel_list _ _ _ _ _ _ text records Ht Hl) in Hret.
  apply create_settings_ret in Hret as [_ (instances & Hc & Hall)].
  simpl in Hc. rewrite Hc. split.
  - symmetry. eapply Forall2_length. exact Hall.
  - intros i record Hi. eapply Forall2_lookup_l in Hall as (y & Hy & Hb); eauto.
Qed.

(** C4: if some record of the schema lacks the type key, or names a type
    with no registered class, the load returns no panel; when the records
    before it were built, the load raises the ValueError of that record
    (missing type, or no class registered) on reaching it, before any later
    record is looked at, and the widgets built so far are dropped with the
    panel. *)
Theorem load_is_all_or_nothing self title config filename data w text records
    (i : nat) record e :
  schema_text filename data w = Some text ->
  Json.loads text = Some (JList records) ->
  records !! i = Some record ->
  record_error self record = Some e ->
  class_of e = ValueError /\
  (forall d, record = JObj d -> dict_get "type" d = None -> e = MissingTypeElement) /\
  (forall d tag, record = JObj d -> dict_get "type" d = Some (JStr tag) ->
                 e = NoClassRegistered (JStr tag)) /\
  (forall p w', Settings.create_json_panel self title config filename data w
                <> (Ret p, w')) /\
  (forall panel_i w_i,
      Settings.create_settings self
        (mkPanel (mkPanelProps title config (Some (uid self))) []) (take i records) w
      = (Ret panel_i, w_i) ->
      Settings.create_json_panel self title config filename data w = (Raise e, w_i)).
Proof.
  intros Ht Hl Hi He.
  rewrite (create_json_panel_list _ _ _ _ _ _ text records Ht Hl).
  assert (Hrun : forall panel,
             Settings.create_settings self panel records w
             = bind (Settings.create_settings self panel (take i records))
                    (fun panel_i =>
                       Settings.create_settings self panel_i
                         (record :: drop (S i) records)) w).
  { intros panel. rewrite <- create_settings_app.
    rewrite (take_drop_middle records i record Hi). reflexivity. }
  rewrite Hrun. unfold bind at 1 2.
  split; [| split; [| split; [| split]]].
  - unfold record_error in He. destruct record; try discriminate.
    destruct (dict_get "type" d) as [[ | | | tag | | ] |]; try discriminate.
    + destruct (_types self !! tag); [discriminate |]. injection He as <-. reflexivity.
    + injection He as <-. reflexivity.
  - intros d -> Hd. simpl in He. rewrite Hd in He. congruence.
  - intros d tag -> Hd. simpl in He. rewrite Hd in He.
    destruct (_types self !! tag); congruence.
  - intros p w'.
    destruct (Settings.create_settings self _ (take i records) w)
      as [[panel_i | e' | ] w_i]; try discriminate.
    simpl. unfold bind. rewrite (create_setting_error _ _ _ _ e He). discriminate.
  - intros panel_i w_i ->. simpl. unfold bind.
    rewrite (create_setting_error _ _ _ _ e He). reflexivity.
Qed.

(** C8, amended: the loader raises when neither a filename nor a data
    string is given; when both are given it does not raise for that: it
    loads the file and ignores the data string. *)
Theorem create_json_panel_sources self title config w :
  Settings.create_json_panel self title config None None w
  = (Raise EitherFilenameOrData, w) /\
  forall f d,
    Settings.create_json_panel self title config (Some f) (Some d) w
    = Settings.create_json_panel self title config (Some f) None w.
Proof. split; reflexivity. Qed.

End loader.

(** ** Content panels *)

(** C9: switching to a uid that is not registered returns [False] without
    raising and leaves the content panel as it was, the panel shown and the
    selected uid included, whatever class the content panel has. *)
Theorem switch_to_unknown_panel (self_add_widget : widget -> M ContentPanel unit)
    (self : ContentPanel) (uid : Z) :
  panels self !! uid = None ->
  ContentPanel.switch_to_panel self_add_widget uid self = (Ret false, self).
Proof.
  intros Hu. unfold ContentPanel.switch_to_panel, bind. simpl. rewrite Hu. reflexivity.
Qed.

(** Once a panel is selected, [add_panel] only registers the next one: it
    never reaches [add_widget]. *)
Lemma add_panel_registers (self_add_widget : widget -> M ContentPanel unit)
    (self : ContentPanel) (panel : widget) (name : string) (uid : Z) :
  current_panel_uid self <> 0 ->
  ContentPanel.add_panel self_add_widget panel name uid self
  = (Ret tt, mkContent (<[uid := panel]> (panels self)) (container self)
                       (own_children self) (current_panel self)
                       (current_panel_uid self)).
Proof.
  intros Hu. unfold ContentPanel.add_panel, bind. simpl.
  rewrite bool_decide_eq_false_2 by exact Hu. reflexivity.
Qed.

(** C6: on a [ContentNoMenu] that shows a first panel, [add_panel] with a
    second panel does not raise: the panel is registered and the first one
    stays attached and shown; [switch_to_panel] then shows the second in
    place of the first, again without raising. Only a direct [add_widget]
    raises and leaves the first panel attached. *)
Theorem no_menu_accepts_second_panel :
  (ContentNoMenu.add_panel 10%nat "first" 1 ;;;
   ContentNoMenu.add_panel 11%nat "second" 2) empty_content
  = (Ret tt, mkContent (<[2 := 11%nat]> {[1 := 10%nat]}) (Some [10%nat]) []
                       (Some 10%nat) 1) /\
  (ContentNoMenu.add_panel 10%nat "first" 1 ;;;
   ContentNoMenu.add_panel 11%nat "second" 2 ;;;
   ContentNoMenu.switch_to_panel 2) empty_content
  = (Ret true, mkContent (<[2 := 11%nat]> {[1 := 10%nat]}) (Some [11%nat]) []
                         (Some 11%nat) 2) /\
  (ContentNoMenu.add_panel 10%nat "first" 1 ;;;
   ContentNoMenu.add_widget 11%nat) empty_content
  = (Raise MoreThanOnePanel,
     mkContent {[1 := 10%nat]} (Some [10%nat]) [] (Some 10%nat) 1).
Proof. repeat split; vm_compute; reflexivity. Qed.

(** ** The theorems on the example data *)

Lemma commit_changed_value_witness :
  log (snd (snd (SettingItem.on_value (VStr "1") (fullscreen_item, example_world))))
  = [ConfigGet 0%nat (Some "graphics") (Some "fullscreen");
     ConfigSet 0%nat (Some "graphics") (Some "fullscreen") "1";
     ConfigWrite 0%nat;
     OnConfigChange 7%nat (Some 0%nat) (Some "graphics") (Some "fullscreen") "1"].
Proof.
  edestruct (commit_changed_value fullscreen_item example_world example_panel
               0%nat 7%nat example_config "graphics" "fullscreen" (VStr "1") "0")
    as [H _];
    [reflexivity | reflexivity | discriminate | discriminate | reflexivity
    | reflexivity | reflexivity | reflexivity | reflexivity | discriminate
    | reflexivity | reflexivity |].
  rewrite H. reflexivity.
Defined.

Lemma commit_same_value_witness :
  SettingItem.on_value (VStr "0") (fullscreen_item, example_world)
  = (Ret tt,
     (fullscreen_item,
      mkWorld (configs example_world) (files example_world)
              [ConfigGet 0%nat (Some "graphics") (Some "fullscreen")])).
Proof.
  edestruct (commit_same_value fullscreen_item example_world example_panel
               0%nat example_config "graphics" "fullscreen" (VStr "0"))
    as [H _];
    [reflexivity | reflexivity | discriminate | discriminate | reflexivity
    | reflexivity | reflexivity | reflexivity |].
  exact H.
Defined.

Lemma set_value_without_config_witness :
  SettingsPanel.set_value (mkPanelProps "Graphics" None (Some 7%nat))
    (Some "graphics") (Some "fullscreen") "1" example_world
  = (Ret tt,
     mkWorld (configs example_world) (files example_world)
             [OnConfigChange 7%nat None (Some "graphics") (Some "fullscreen") "1"]).
Proof.
  edestruct (set_value_without_config example_world
               (mkPanelProps "Graphics" None (Some 7%nat)) 7%nat
               (Some "graphics") (Some "fullscreen") "1")
    as (_ & H & _); [reflexivity | reflexivity |].
  exact H.
Defined.



Lemma panel_keeps_schema_order_witness :
  exists text records,
    schema_text (Some "settings.json") None example_world = Some text /\
    Json.loads text = Some (JList records) /\
    length records = 3%nat /\
    forall (i : nat) record,
      records !! i = Some record ->
      exists instance,
        children (mkPanel (mkPanelProps "Graphics" (Some 0%nat) (Some 7%nat))
                    [mkInstance SettingTitle [("title", JStr "Windows")] None;
                     mkInstance SettingBoolean
                       [("title", JStr "Fullscreen"); ("section", JStr "graphics");
                        ("key", JStr "fullscreen")]
                       (Some (mkItem (Some "graphics") (Some "fullscreen") (VStr "0")
                                     (Some example_panel)));
                     mkInstance SettingNumeric
                       [("section", JStr "graphics"); ("key", JStr "width")]
                       (Some width_item)]) !! i = Some instance /\
        built_from (Settings.__init__ 7%nat) record instance.
Proof.
  edestruct (panel_keeps_schema_order (Settings.__init__ 7%nat) "Graphics" (Some 0%nat)
               (Some "settings.json") None example_world)
    as (text & records & Ht & Hl & Hlen & Hall); [vm_compute; reflexivity |].
  exists text, records. repeat split; try assumption.
  rewrite <- Hlen. reflexivity.
Defined.

Lemma load_is_all_or_nothing_witness :
  Settings.create_json_panel (Settings.__init__ 7%nat) "Colors" (Some 0%nat)
    None (Some color_json) example_world
  = (Raise (NoClassRegistered (JStr "color")), example_world).
Proof.
  edestruct (load_is_all_or_nothing (Settings.__init__ 7%nat) "Colors" (Some 0%nat)
               None (Some color_json) example_world color_json
               [JObj [("type", JStr "title")]; JObj [("type", JStr "color")]]
               1%nat (JObj [("type", JStr "color")])
               (NoClassRegistered (JStr "color")))
    as (_ & _ & _ & _ & H);
    [reflexivity | vm_compute; reflexivity | reflexivity | vm_compute; reflexivity |].
  eapply H. vm_compute. reflexivity.
Defined.

(** C8 as stated fails: with both a filename and a data string the loader
    returns a panel, built from the file. *)
Lemma both_sources_accepted :
  Settings.create_json_panel (Settings.__init__ 7%nat) "Graphics" (Some 0%nat)
    (Some "empty.json") (Some color_json) example_world
  = (Ret (mkPanel (mkPanelProps "Graphics" (Some 0%nat) (Some 7%nat)) []),
     example_world).
Proof. vm_compute. reflexivity. Qed.

Lemma switch_to_unknown_panel_witness :
  ContentNoMenu.switch_to_panel 5 (mkContent {[1 := 10%nat]} (Some [10%nat]) []
                                     (Some 10%nat) 1)
  = (Ret false, mkContent {[1 := 10%nat]} (Some [10%nat]) [] (Some 10%nat) 1).
Proof.
  apply (switch_to_unknown_panel ContentNoMenu.add_widget). reflexivity.
Defined.

(** * Further properties of the module *)

(** ** Writing a value through the panel *)

Section store_paths.

Context {St : Type} `{!ConfigStore St}.

Implicit Types (w : World St) (st : St) (c : cfg_ref) (p : PanelProps)
               (self : SettingItem).

(** X1: a panel that has a ConfigParser but no Settings widget stores and
    flushes a changed value, and notifies nobody. *)
Theorem set_value_without_settings w p c st sec k cur v st1 st2 :
  config p = Some c -> settings p = None ->
  configs w !! c = Some st ->
  store_get st sec k = Done cur -> cur <> v ->
  store_set st sec k v = Done st1 ->
  store_write st1 = Done st2 ->
  SettingsPanel.set_value p sec k v w
  = (Ret tt, mkWorld (<[c := st2]> (configs w)) (files w)
                     (log w ++ [ConfigGet c sec k; ConfigSet c sec k v; ConfigWrite c])).
Proof.
  intros Hp Hs Hc Hg Hne Hset Hwr. unfold SettingsPanel.set_value, bind.
  rewrite (get_value_attached w p c st sec k cur Hp Hc Hg).
  rewrite bool_decide_eq_false_2 by congruence.
  rewrite Hp, Hs.
  rewrite (config_set_done (mkWorld (configs w) (files w) _) c st sec k v st1 Hc Hset).
  rewrite (config_write_done (mkWorld (<[c := st1]> (configs w)) (files w) _)
             c st1 st2 (lookup_insert_eq _ _ _) Hwr).
  simpl. rewrite insert_insert_eq. repeat rewrite <- app_assoc. reflexivity.
Qed.

(** X2: an exception of the ConfigParser stops [set_value] where it is
    raised. A failing [get] is the only call made; a failing [set] is not
    followed by [write]; a failing [write] leaves the value set in the
    ConfigParser; in none of the three cases is [on_config_change]
    dispatched. *)
Theorem set_value_failures w p c st sec k v :
  config p = Some c ->
  configs w !! c = Some st ->
  (forall e,
      store_get st sec k = Fails e ->
      SettingsPanel.set_value p sec k v w
      = (Raise e, mkWorld (configs w) (files w) (log w ++ [ConfigGet c sec k]))) /\
  (forall cur e,
      store_get st sec k = Done cur -> cur <> v ->
      store_set st sec k v = Fails e ->
      SettingsPanel.set_value p sec k v w
      = (Raise e, mkWorld (configs w) (files w)
                          (log w ++ [ConfigGet c sec k; ConfigSet c sec k v]))) /\
  (forall cur st1 e,
      store_get st sec k = Done cur -> cur <> v ->
      store_set st sec k v = Done st1 ->
      store_write st1 = Fails e ->
      SettingsPanel.set_value p sec k v w
      = (Raise e, mkWorld (<[c := st1]> (configs w)) (files w)
                          (log w ++ [ConfigGet c sec k; ConfigSet c sec k v;
                                     ConfigWrite c]))).
Proof.
  intros Hp Hc. split; [| split].
  - intros e Hg.
    unfold SettingsPanel.set_value, SettingsPanel.get_value, SettingsPanel.config_get,
      SettingsPanel.with_config, bind.
    rewrite Hp. simpl. rewrite Hc, Hg. reflexivity.
  - intros cur e Hg Hne Hset. unfold SettingsPanel.set_value, bind.
    rewrite (get_value_attached w p c st sec k cur Hp Hc Hg).
    rewrite bool_decide_eq_false_2 by congruence. rewrite Hp.
    unfold SettingsPanel.config_set, SettingsPanel.with_config, bind. simpl.
    rewrite Hc, Hset. rewrite <- app_assoc. reflexivity.
  - intros cur st1 e Hg Hne Hset Hwr. unfold SettingsPanel.set_value, bind.
    rewrite (get_value_attached w p c st sec k cur Hp Hc Hg).
    rewrite bool_decide_eq_false_2 by congruence. rewrite Hp.
    rewrite (config_set_done (mkWorld (configs w) (files w) _) c st sec k v st1 Hc Hset).
    unfold SettingsPanel.config_write, SettingsPanel.with_config, bind. simpl.
    rewrite lookup_insert_eq, Hwr. repeat rewrite <- app_assoc. reflexivity.
Qed.

(** X3: on a ConfigParser that returns what was set, also after a write,
    committing the same changed value twice in a row writes and notifies
    once: the second commit only makes the comparing read. *)
Theorem second_commit_only_reads self w p c s st sec k v cur st1 st2 :
  (forall st st' s k v, store_set st s k v = Done st' -> store_get st' s k = Done v) ->
  (forall st st' s k, store_write st = Done st' -> store_get st' s k = store_get st s k) ->
  section self = Some sec -> key self = Some k -> sec <> "" -> k <> "" ->
  panel self = Some p -> config p = Some c -> settings p = Some s ->
  configs w !! c = Some st ->
  store_get st (Some sec) (Some k) = Done cur ->
  cur <> py_str v ->
  store_set st (Some sec) (Some k) (py_str v) = Done st1 ->
  store_write st1 = Done st2 ->
  (SettingItem.on_value v ;;; SettingItem.on_value v) (self, w)
  = (Ret tt,
     (self,
      mkWorld (<[c := st2]> (configs w)) (files w)
              (log w ++ [ConfigGet c (Some sec) (Some k);
                         ConfigSet c (Some sec) (Some k) (py_str v);
                         ConfigWrite c;
                         OnConfigChange s (Some c) (Some sec) (Some k) (py_str v);
                         ConfigGet c (Some sec) (Some k)]))).
Proof.
  intros Hgs Hgw Hsec Hkey Hs Hk Hp Hc Hset Hw Hget Hne Hst1 Hst2.
  unfold bind.
  rewrite (on_value_bound self w p sec k v) by assumption.
  unfold SettingItem.in_world. simpl.
  rewrite (set_value_changed w p c s st (Some sec) (Some k) cur (py_str v) st1 st2)
    by assumption.
  rewrite (on_value_bound self _ p sec k v) by assumption.
  unfold SettingItem.in_world. simpl.
  rewrite (set_value_same _ p c st2 (Some sec) (Some k) (py_str v)); try assumption.
  - simpl. rewrite <- app_assoc. reflexivity.
  - simpl. apply lookup_insert_eq.
  - rewrite (Hgw st1 st2 _ _ Hst2). eapply Hgs. exact Hst1.
Qed.

(** X4: an item without a section or without a key (unset or empty) is
    display only: an assignment changes the property and calls nothing, and
    no input to the validators of the numeric, string and path settings
    reaches the ConfigParser or the Settings widget. *)
Theorem unbound_item_is_display_only self w :
  truthy (section self) && truthy (key self) = false ->
  (forall v, SettingItem.assign_value v (self, w)
             = (Ret tt, (if py_eq (value self) v then self else with_value self v, w))) /\
  (forall text, snd (snd (SettingNumeric._validate text (self, w))) = w) /\
  (forall text, snd (snd (SettingString._validate text (self, w))) = w) /\
  (forall realpath selection,
      snd (snd (SettingPath._validate realpath selection (self, w))) = w).
Proof.
  intros Hu.
  assert (Hon : forall v, SettingItem.on_value v (with_value self v, w)
                          = (Ret tt, (with_value self v, w))).
  { intros v. unfold SettingItem.on_value, bind. simpl.
    destruct (truthy (section self)), (truthy (key self)); try discriminate;
      reflexivity. }
  assert (Has : forall v, SettingItem.assign_value v (self, w)
             = (Ret tt, (if py_eq (value self) v then self else with_value self v, w))).
  { intros v. unfold SettingItem.assign_value, bind. simpl.
    destruct (py_eq (value self) v); [reflexivity |].
    unfold SettingItem.put_self. simpl. rewrite Hon. reflexivity. }
  split; [exact Has |]. split; [| split].
  - intros text. unfold SettingNumeric._validate, bind at 1. simpl.
    rewrite try_except_return_state.
    destruct (has_point (py_str (value self))).
    + destruct (py_float text); unfold bind; simpl; try reflexivity.
      rewrite Has. reflexivity.
    + destruct (py_int text); unfold bind; simpl; try reflexivity.
      rewrite Has. reflexivity.
  - intros text. unfold SettingString._validate.
    destruct (py_strip text); [rewrite Has |]; reflexivity.
  - intros realpath [| first rest]; unfold SettingPath._validate;
      [| rewrite Has]; reflexivity.
Qed.

(** X5: an item constructed without section and key on a panel with a
    ConfigParser still asks it for (None, None), once: if the ConfigParser
    refuses, the construction raises its error; if it answers, the item
    holds the answer. *)
Theorem construction_without_key w p c st kw :
  dict_get "value" kw = None ->
  dict_get "section" kw = None ->
  dict_get "key" kw = None ->
  config p = Some c ->
  configs w !! c = Some st ->
  SettingItem.__init__ p kw (item_defaults, w)
  = match store_get st None None with
    | Fails e =>
        (Raise e,
         (mkItem None None VNone (Some p),
          mkWorld (configs w) (files w) (log w ++ [ConfigGet c None None])))
    | Done v =>
        (Ret tt,
         (mkItem None None (VStr v) (Some p),
          mkWorld (configs w) (files w) (log w ++ [ConfigGet c None None])))
    end.
Proof.
  intros Hv Hsec Hkey Hc Hw.
  unfold SettingItem.__init__. rewrite Hv.
  unfold bind, SettingItem.string_kwarg. rewrite Hsec, Hkey. simpl.
  unfold SettingItem.in_world, SettingsPanel.get_value, SettingsPanel.config_get,
    SettingsPanel.with_config, bind. rewrite Hc. simpl. rewrite Hw.
  destruct (store_get st None None); reflexivity.
Qed.

End store_paths.

(** ** What loading a panel does to the shared objects *)

Section loading.

Context {St : Type} `{!ConfigStore St}.

Implicit Types (w : World St) (st : St) (c : cfg_ref).

Lemma only_reads_refl w : only_reads w w.
Proof.
  split; [reflexivity |]. split; [reflexivity |].
  exists []. rewrite app_nil_r. split; [reflexivity | constructor].
Qed.

Lemma only_reads_trans w1 w2 w3 :
  only_reads w1 w2 -> only_reads w2 w3 -> only_reads w1 w3.
Proof.
  intros (Hc1 & Hf1 & evs1 & Hl1 & Ha1) (Hc2 & Hf2 & evs2 & Hl2 & Ha2).
  split; [congruence |]. split; [congruence |].
  exists (evs1 ++ evs2)%list. split.
  - rewrite Hl2, Hl1, app_assoc. reflexivity.
  - apply Forall_app. split; assumption.
Qed.

Lemma only_reads_gets w c sec k (n : nat) :
  only_reads w (mkWorld (configs w) (files w)
                        (log w ++ replicate n (ConfigGet c sec k))).
Proof.
  split; [reflexivity |]. split; [reflexivity |].
  eexists. split; [reflexivity |].
  induction n; simpl; constructor; auto.
Qed.

(** The constructor of an item, once the keyword arguments are read: what
    it calls, and what the item holds when it returns. *)
Lemma init_tail (p : PanelProps) sec k w r it w' :
  bind (SettingItem.in_world (SettingsPanel.get_value p sec k))
       (fun v => SettingItem.assign_value
                   (match v with Some s => VStr s | None => VNone end))
       (mkItem sec k VNone (Some p), w) = (r, (it, w')) ->
  only_reads w w' /\
  (r = Ret tt -> holds_stored (configs w) p it /\ section it = sec /\ key it = k).
Proof.
  unfold SettingItem.in_world, SettingsPanel.get_value, bind.
  destruct (config p) as [c |] eqn:Hp; simpl.
  - unfold SettingsPanel.config_get, SettingsPanel.with_config, bind. simpl.
    destruct (configs w !! c) as [st |] eqn:Hc; simpl.
    + destruct (store_get st sec k) as [v | e] eqn:Hg; simpl.
      * unfold SettingItem.assign_value, bind. simpl.
        unfold SettingItem.on_value, bind. simpl.
        destruct (truthy sec) eqn:Hts, (truthy k) eqn:Htk; simpl;
          try (intros [= <- <- <-]; split;
               [apply (only_reads_gets w c sec k 1) |];
               intros _; split; [| split; reflexivity];
               split; [reflexivity |]; rewrite Hp; exists st, v; auto).
        unfold SettingItem.in_world. simpl.
        rewrite (set_value_same (mkWorld (configs w) (files w) _) p c st sec k v Hp Hc Hg).
        simpl. intros [= <- <- <-]. split.
        { rewrite <- app_assoc. apply (only_reads_gets w c sec k 2). }
        intros _. split; [| split; reflexivity].
        split; [reflexivity |]. rewrite Hp. exists st, v. auto.
      * intros [= <- <- <-]. split; [apply (only_reads_gets w c sec k 1) | discriminate].
    + intros [= <- <- <-]. split; [apply (only_reads_gets w c sec k 1) | discriminate].
  - intros [= <- <- <-]. split; [apply only_reads_refl |].
    intros _. split; [| split; reflexivity].
    split; [reflexivity |]. rewrite Hp. reflexivity.
Qed.

Lemma init_run (p : PanelProps) kw w r it w' :
  SettingItem.__init__ p kw (item_defaults, w) = (r, (it, w')) ->
  only_reads w w' /\ (r = Ret tt -> holds_stored (configs w) p it).
Proof.
  unfold SettingItem.__init__.
  destruct (dict_get "value" kw).
  { intros [= <- <- <-]. split; [apply only_reads_refl | discriminate]. }
  unfold bind at 1, SettingItem.string_kwarg at 1.
  destruct (dict_get "section" kw) as [[ | | | sec | | ] |]; simpl;
    try (intros [= <- <- <-]; split; [apply only_reads_refl | discriminate]);
    unfold bind at 1, SettingItem.string_kwarg at 1;
    (destruct (dict_get "key" kw) as [[ | | | k | | ] |]; simpl;
     try (intros [= <- <- <-]; split; [apply only_reads_refl | discriminate]));
    intros Hrun; apply init_tail in Hrun as [Hr Hh];
    (split; [exact Hr | intros Hret; apply Hh; exact Hret]).
Qed.

Lemma instantiate_run cls (p : PanelProps) kw w r w' :
  Settings.instantiate cls p kw w = (r, w') ->
  only_reads w w' /\ (forall inst, r = Ret inst -> well_built (configs w) p inst).
Proof.
  unfold Settings.instantiate. destruct (dict_get "panel" kw).
  { intros [= <- <-]. split; [apply only_reads_refl | discriminate]. }
  destruct cls;
    try (destruct (SettingItem.__init__ p kw (item_defaults, w))
           as [[[] | e | ] [it w1]] eqn:Hrun;
         apply init_run in Hrun as [Hr Hh];
         intros [= <- <-]; (split; [exact Hr |]);
         intros inst [= <-]; unfold well_built; simpl; auto).
  intros [= <- <-]. split; [apply only_reads_refl |].
  intros inst [= <-]. reflexivity.
Qed.

Lemma create_setting_run self (p : PanelProps) record w r w' :
  Settings.create_setting self p record w = (r, w') ->
  only_reads w w' /\ (forall inst, r = Ret inst -> well_built (configs w) p inst).
Proof.
  assert (Hstop : forall (o : outcome Instance),
             (forall inst, o <> Ret inst) ->
             (o, w) = (r, w') ->
             only_reads w w' /\
             (forall inst, r = Ret inst -> well_built (configs w) p inst)).
  { intros o Ho [= <- <-]. split; [apply only_reads_refl |].
    intros inst Hi. destruct (Ho inst Hi). }
  unfold Settings.create_setting, bind.
  destruct record as [ | b | z | s | l | d]; simpl;
    try (apply Hstop; discriminate).
  - destruct (bool_decide _); apply Hstop; discriminate.
  - destruct (existsb _ l); apply Hstop; discriminate.
  - destruct (bool_decide (is_Some (dict_get "type" d))); simpl;
      [| apply Hstop; discriminate].
    destruct (dict_get "type" d) as [ttype |]; [| apply Hstop; discriminate].
    destruct ttype as [ | b | z | tag | l | d']; simpl;
      try (apply Hstop; discriminate).
    destruct (_types self !! tag) as [cls |]; [| apply Hstop; discriminate].
    apply instantiate_run.
Qed.

Lemma create_settings_run self panel data w r w' :
  Settings.create_settings self panel data w = (r, w') ->
  only_reads w w' /\
  (forall p', r = Ret p' ->
              props p' = props panel /\
              (Forall (well_built (configs w) (props panel)) (children panel) ->
               Forall (well_built (configs w) (props panel)) (children p'))).
Proof.
  revert panel w. induction data as [| x data IH]; intros panel w; simpl.
  - intros [= <- <-]. split; [apply only_reads_refl |].
    intros p' [= <-]. auto.
  - unfold bind.
    destruct (Settings.create_setting self (props panel) x w)
      as [[inst | e | ] w1] eqn:Hx;
      apply create_setting_run in Hx as [Hr1 Hb].
    + intros Hrest. apply IH in Hrest as [Hr2 Hp].
      split; [eapply only_reads_trans; eassumption |].
      intros p' ->. destruct (Hp p' eq_refl) as [Hprops Hall]. simpl in *.
      split; [exact Hprops |]. intros Hc.
      destruct Hr1 as [Hcfg _]. rewrite Hcfg in Hall. apply Hall.
      apply Forall_app. split; [exact Hc |].
      constructor; [apply Hb; reflexivity | constructor].
    + intros [= <- <-]. split; [exact Hr1 | discriminate].
    + intros [= <- <-]. split; [exact Hr1 | discriminate].
Qed.

Lemma create_json_panel_run self title config filename data w r w' :
  Settings.create_json_panel self title config filename data w = (r, w') ->
  only_reads w w' /\
  (forall p, r = Ret p ->
             props p = mkPanelProps title config (Some (uid self)) /\
             Forall (well_built (configs w) (props p)) (children p)).
Proof.
  assert (Hstop : forall (o : outcome Panel),
             (forall p, o <> Ret p) ->
             (o, w) = (r, w') ->
             only_reads w w' /\
             (forall p, r = Ret p ->
                        props p = mkPanelProps title config (Some (uid self)) /\
                        Forall (well_built (configs w) (props p)) (children p))).
  { intros o Ho [= <- <-]. split; [apply only_reads_refl |].
    intros p Hp. destruct (Ho p Hp). }
  assert (Hlist : forall doc,
             match doc with
             | JList records =>
                 Settings.create_settings self
                   (mkPanel (mkPanelProps title config (Some (uid self))) []) records
             | _ => raise FirstElementMustBeList
             end w = (r, w') ->
             only_reads w w' /\
             (forall p, r = Ret p ->
                        props p = mkPanelProps title config (Some (uid self)) /\
                        Forall (well_built (configs w) (props p)) (children p))).
  { intros doc. destruct doc; try (apply Hstop; discriminate).
    intros Hrun. apply create_settings_run in Hrun as [Hr Hp].
    split; [exact Hr |]. intros p ->. destruct (Hp p eq_refl) as [Hprops Hall].
    simpl in *. split; [exact Hprops |]. rewrite Hprops. apply Hall. constructor. }
  unfold Settings.create_json_panel, Settings.read_file, Settings.json_loads, bind.
  destruct filename as [f |], data as [d |]; simpl;
    try (apply Hstop; discriminate).
  - destruct (files w !! f) as [text |]; simpl; [| apply Hstop; discriminate].
    destruct (Json.loads text); simpl; [apply Hlist | apply Hstop; discriminate].
  - destruct (files w !! f) as [text |]; simpl; [| apply Hstop; discriminate].
    destruct (Json.loads text); simpl; [apply Hlist | apply Hstop; discriminate].
  - destruct (Json.loads d); simpl; [apply Hlist | apply Hstop; discriminate].
Qed.

(** X6: a load that stays within what is modelled (no record with a
    [value] keyword or with a section or key that is not a string, a
    document the reader reads) never changes a ConfigParser or a file and
    never notifies: however it ends, with a panel or with an exception, the
    calls it made are reads. *)
Theorem loading_only_reads self title config filename data w :
  fst (Settings.create_json_panel self title config filename data w) <> Unmodelled ->
  only_reads w (snd (Settings.create_json_panel self title config filename data w)).
Proof.
  intros _.
  destruct (Settings.create_json_panel self title config filename data w)
    as [r w'] eqn:Hrun.
  apply create_json_panel_run in Hrun as [Hr _]. exact Hr.
Qed.

(** X7: the panel returned by the loader carries the given title and
    ConfigParser and the Settings widget itself; each of its widgets is
    either a title, or an item attached to this panel that holds the value
    the ConfigParser has for its section and key ([None] when the panel has
    no ConfigParser). *)
Theorem loaded_items_hold_stored_values self title config filename data w p w' :
  Settings.create_json_panel self title config filename data w = (Ret p, w') ->
  props p = mkPanelProps title config (Some (uid self)) /\
  Forall (well_built (configs w) (props p)) (children p).
Proof.
  intros Hrun. apply create_json_panel_run in Hrun as [_ Hp]. apply Hp. reflexivity.
Qed.

(** X8: a document that is not a list is refused with the ValueError of the
    first test, before any widget is built or any call made. *)
Theorem schema_must_be_a_list self title config filename data w text doc :
  schema_text filename data w = Some text ->
  Json.loads text = Some doc ->
  (forall records, doc <> JList records) ->
  Settings.create_json_panel self title config filename data w
  = (Raise FirstElementMustBeList, w).
Proof.
  unfold schema_text, Settings.create_json_panel, Settings.read_file,
    Settings.json_loads, bind.
  destruct filename as [f |], data as [d |]; simpl; try discriminate;
    intros Hf Hl Hdoc; try injection Hf as ->; try rewrite Hf; simpl;
    rewrite Hl; simpl; destruct doc; try reflexivity; destruct (Hdoc l eq_refl).
Qed.

(** X9: a filename that cannot be read raises the IOError of [open], also
    when a data string is given next to it: the data string is no
    fallback. *)
Theorem unreadable_file_raises self title config f data w :
  files w !! f = None ->
  Settings.create_json_panel self title config (Some f) data w
  = (Raise (Builtin IOError), w).
Proof.
  intros Hf.
  unfold Settings.create_json_panel, Settings.read_file, bind.
  destruct data; simpl; rewrite Hf; reflexivity.
Qed.

(** X10: an element of the schema that is not an object never becomes a
    widget: its test or its indexing raises (ValueError for the missing
    type, TypeError otherwise) and the load returns no panel. *)
Theorem element_must_be_an_object self title config filename data w text records
    (i : nat) record :
  schema_text filename data w = Some text ->
  Json.loads text = Some (JList records) ->
  records !! i = Some record ->
  (forall d, record <> JObj d) ->
  (forall (p : PanelProps) w0, exists e,
      Settings.create_setting self p record w0 = (Raise e, w0) /\
      (e = MissingTypeElement \/ e = Builtin TypeError)) /\
  (forall p w', Settings.create_json_panel self title config filename data w
                <> (Ret p, w')).
Proof.
  intros Ht Hl Hi Hobj. split.
  - intros p w0. unfold Settings.create_setting, bind.
    destruct record as [ | b | z | s | l | d]; simpl; eauto.
    + destruct (bool_decide _); simpl; eauto.
    + destruct (existsb _ l); simpl; eauto.
    + destruct (Hobj d eq_refl).
  - intros p w' Hrun.
    rewrite (create_json_panel_list _ _ _ _ _ _ text records Ht Hl) in Hrun.
    apply create_settings_ret in Hrun as [_ (instances & _ & Hall)].
    eapply Forall2_lookup_l in Hall as (inst & _ & (d & tag & Hd & _)); eauto.
    exact (Hobj d Hd).
Qed.

End loading.

(** ** Navigation between panels *)

Lemma filter_out_only (p : widget) : filter (fun x => x <> p) [p] = [].
Proof. rewrite filter_cons_False by (intros Hp; apply Hp; reflexivity). reflexivity. Qed.

(** Both classes attach a widget to an empty container. *)
Lemma add_widget_to_empty (self : ContentPanel) (new : widget) :
  container self = Some [] ->
  ContentPanel.add_widget new self
  = (Ret tt, ContentPanel.set_container self [new]) /\
  ContentNoMenu.add_widget new self
  = (Ret tt, ContentPanel.set_container self [new]).
Proof.
  intros Hc.
  assert (Hbase : ContentPanel.add_widget new self
                  = (Ret tt, ContentPanel.set_container self [new])).
  { unfold ContentPanel.add_widget, ContentPanel.container_add_widget, bind. simpl.
    rewrite Hc. simpl. rewrite Hc. reflexivity. }
  split; [exact Hbase |].
  unfold ContentNoMenu.add_widget, bind. simpl. rewrite Hc. exact Hbase.
Qed.

Lemma switch_shows (self_add_widget : widget -> M ContentPanel unit)
    (self : ContentPanel) (uid : Z) (new : widget) :
  (forall s, container s = Some [] ->
             self_add_widget new s = (Ret tt, ContentPanel.set_container s [new])) ->
  shows_current self ->
  panels self !! uid = Some new ->
  ContentPanel.switch_to_panel self_add_widget uid self
  = (Ret true, mkContent (panels self) (Some [new]) (own_children self) (Some new) uid).
Proof.
  intros Hadd Hshow Hreg. unfold shows_current in Hshow.
  unfold ContentPanel.switch_to_panel, bind. simpl. rewrite Hreg.
  destruct (current_panel self) as [old |] eqn:Hcur.
  - unfold ContentPanel.remove_widget, ContentPanel.container_remove_widget.
    rewrite Hshow, filter_out_only.
    rewrite Hadd by reflexivity. reflexivity.
  - simpl. rewrite Hadd by exact Hshow. destruct self; reflexivity.
Qed.

(** X11: on a content panel whose container holds the panel shown and
    nothing else, switching to a registered uid returns [True], takes the
    old panel out and shows the registered one, for [ContentPanel] and for
    [ContentNoMenu] alike. *)
Theorem switch_to_registered_panel (self : ContentPanel) (uid : Z) (new : widget) :
  shows_current self ->
  panels self !! uid = Some new ->
  ContentPanel.switch_to_panel ContentPanel.add_widget uid self
  = (Ret true, mkContent (panels self) (Some [new]) (own_children self) (Some new) uid) /\
  ContentNoMenu.switch_to_panel uid self
  = (Ret true, mkContent (panels self) (Some [new]) (own_children self) (Some new) uid).
Proof.
  intros Hshow Hreg. split; apply switch_shows; try assumption;
    intros s Hs; apply (add_widget_to_empty s new Hs).
Qed.

Lemma add_panel_when_unselected (self_add_widget : widget -> M ContentPanel unit)
    (self : ContentPanel) (panel : widget) (name : string) (uid : Z) :
  (forall s, container s = Some [] ->
             self_add_widget panel s = (Ret tt, ContentPanel.set_container s [panel])) ->
  shows_current self ->
  current_panel_uid self = 0 ->
  ContentPanel.add_panel self_add_widget panel name uid self
  = (Ret tt, mkContent (<[uid := panel]> (panels self)) (Some [panel])
                       (own_children self) (Some panel) uid).
Proof.
  intros Hadd Hshow Hzero. unfold ContentPanel.add_panel, bind at 1 2 3. simpl.
  rewrite bool_decide_eq_true_2 by exact Hzero.
  unfold bind.
  rewrite (switch_shows self_add_widget _ uid panel Hadd);
    [reflexivity | exact Hshow | apply lookup_insert_eq].
Qed.

(** X12: [add_panel] shows the panel it is given whenever the selected uid
    is 0: that is the first panel added, and also every panel added while
    the one shown was registered under uid 0, which it then replaces. *)
Theorem add_panel_shows_when_unselected (self : ContentPanel) (panel : widget)
    (name : string) (uid : Z) :
  shows_current self ->
  current_panel_uid self = 0 ->
  ContentPanel.add_panel ContentPanel.add_widget panel name uid self
  = (Ret tt, mkContent (<[uid := panel]> (panels self)) (Some [panel])
                       (own_children self) (Some panel) uid) /\
  ContentNoMenu.add_panel panel name uid self
  = (Ret tt, mkContent (<[uid := panel]> (panels self)) (Some [panel])
                       (own_children self) (Some panel) uid).
Proof.
  intros Hshow Hzero. split; apply add_panel_when_unselected; try assumption;
    intros s Hs; apply (add_widget_to_empty s panel Hs).
Qed.

Lemma content_call_keeps (self_add_widget : widget -> M ContentPanel unit)
    (c : ContentCall) (self : ContentPanel) :
  (forall new s, container s = Some [] ->
                 self_add_widget new s = (Ret tt, ContentPanel.set_container s [new])) ->
  shows_current self ->
  exists self', content_call self_add_widget c self = (Ret tt, self') /\
                shows_current self'.
Proof.
  intros Hadd Hshow. destruct c as [panel name uid | uid]; simpl.
  - destruct (decide (current_panel_uid self = 0)) as [Hz | Hnz].
    + rewrite (add_panel_when_unselected _ _ _ _ _ (Hadd panel) Hshow Hz).
      eexists. split; reflexivity.
    + rewrite (add_panel_registers _ _ _ _ _ Hnz).
      eexists. split; [reflexivity | exact Hshow].
  - unfold bind. destruct (panels self !! uid) as [new |] eqn:Hreg.
    + rewrite (switch_shows _ _ _ new (Hadd new) Hshow Hreg).
      eexists. split; reflexivity.
    + unfold ContentPanel.switch_to_panel, bind. simpl. rewrite Hreg. simpl.
      eexists. split; [reflexivity | exact Hshow].
Qed.

Lemma content_calls_keep (self_add_widget : widget -> M ContentPanel unit)
    (cs : list ContentCall) (self : ContentPanel) :
  (forall new s, container s = Some [] ->
                 self_add_widget new s = (Ret tt, ContentPanel.set_container s [new])) ->
  shows_current self ->
  exists self', content_calls self_add_widget cs self = (Ret tt, self') /\
                shows_current self'.
Proof.
  intros Hadd. revert self. induction cs as [| c cs IH]; intros self Hshow; simpl.
  - exists self. split; [reflexivity | exact Hshow].
  - unfold bind.
    destruct (content_call_keeps _ c self Hadd Hshow) as (self1 & -> & Hshow1).
    apply IH. exact Hshow1.
Qed.

(** X13: starting from a container that holds the panel shown and nothing
    else, no sequence of [add_panel] and [switch_to_panel] calls raises, and
    the container again holds exactly the panel shown afterwards, so at most
    one panel is attached at any time; on a [ContentNoMenu] the test of
    [add_widget] therefore never fires through these two methods. *)
Theorem content_calls_keep_one_panel (cs : list ContentCall) (self : ContentPanel) :
  shows_current self ->
  (exists self', content_calls ContentPanel.add_widget cs self = (Ret tt, self') /\
                 shows_current self') /\
  (exists self', content_calls ContentNoMenu.add_widget cs self = (Ret tt, self') /\
                 shows_current self').
Proof.
  intros Hshow. split; apply content_calls_keep; try assumption;
    intros new s Hs; apply (add_widget_to_empty s new Hs).
Qed.

(** ** The spinner menu *)

Lemma append_inj_r (s a b : string) : s ++ a = s ++ b -> a = b.
Proof. induction s as [| c s IH]; simpl; [auto |]. intros [= Heq]. auto. Qed.

Lemma numbered_inj (name : string) (i j : Z) :
  MenuSpinner.numbered name i = MenuSpinner.numbered name j -> i = j.
Proof.
  unfold MenuSpinner.numbered. intros Heq.
  apply append_inj_r, append_inj_r in Heq. apply (inj pretty) in Heq. exact Heq.
Qed.

Lemma first_free_some (fuel : nat) (name : string) (values : list string) (i j : Z) :
  MenuSpinner.first_free fuel name values i = Some j ->
  i <= j /\ (MenuSpinner.numbered name j ∉ values) /\
  forall m, i <= m < j -> MenuSpinner.numbered name m ∈ values.
Proof.
  revert i. induction fuel as [| fuel IH]; intros i; simpl; [discriminate |].
  case_bool_decide as Hin.
  - intros Hrec. apply IH in Hrec as (Hle & Hfree & Hbelow).
    split; [lia |]. split; [exact Hfree |].
    intros m Hm. destruct (decide (m = i)) as [-> | Hne]; [exact Hin |].
    apply Hbelow. lia.
  - intros [= <-]. split; [lia |]. split; [exact Hin |]. intros m Hm. lia.
Qed.

Lemma first_free_none (fuel : nat) (name : string) (values : list string) (i : Z) :
  MenuSpinner.first_free fuel name values i = None ->
  forall n : nat, (n < fuel)%nat -> MenuSpinner.numbered name (i + Z.of_nat n) ∈ values.
Proof.
  revert i. induction fuel as [| fuel IH]; intros i; simpl; [intros _ n Hn; lia |].
  case_bool_decide as Hin; [| discriminate].
  intros Hrec [| n] Hn.
  - rewrite Z.add_0_r. exact Hin.
  - replace (i + Z.of_nat (S n)) with ((i + 1) + Z.of_nat n) by lia.
    apply (IH _ Hrec). lia.
Qed.

(** One test more than there are values is enough for the loop to end. *)
Lemma first_free_found (name : string) (values : list string) (i : Z) :
  exists j, MenuSpinner.first_free (S (length values)) name values i = Some j.
Proof.
  destruct (MenuSpinner.first_free (S (length values)) name values i) as [j |] eqn:Hf;
    [eauto |].
  exfalso. pose proof (first_free_none _ _ _ _ Hf) as Hall.
  set (cands := (fun n : nat => MenuSpinner.numbered name (i + Z.of_nat n))
                  <$> seq 0 (S (length values))).
  assert (Hnd : NoDup cands).
  { apply NoDup_fmap_2; [| apply NoDup_seq].
    intros a b Hab. apply numbered_inj in Hab. lia. }
  assert (Hsub : cands ⊆+ values).
  { apply NoDup_submseteq; [exact Hnd |].
    intros x Hx. apply list_elem_of_fmap in Hx as (n & -> & Hn).
    apply elem_of_seq in Hn. apply Hall. lia. }
  apply submseteq_length in Hsub. unfold cands in Hsub.
  rewrite length_fmap, length_seq in Hsub. lia.
Qed.

(** What [add_item] does, in full. *)
Lemma add_item_run (self : MenuSpinner.MenuSpinner)
    (name : string) (uid : Z) :
  let values := MenuSpinner.values (MenuSpinner.spinner self) in
  exists shown,
    MenuSpinner.add_item name uid self
    = (Ret tt,
       MenuSpinner.mkMenu
         (MenuSpinner.selected_uid self)
         (MenuSpinner.mkSpinner
            (values ++ [shown])
            (if bool_decide (MenuSpinner.text (MenuSpinner.spinner self) = "")
             then shown else MenuSpinner.text (MenuSpinner.spinner self)))
         (<[shown := uid]> (MenuSpinner.panel_names self))
         (MenuSpinner.spinner_text self)) /\
    (shown ∉ values) /\
    (NoDup values -> NoDup (values ++ [shown])) /\
    (name ∉ values -> shown = name) /\
    (name ∈ values ->
     exists i, 2 <= i /\ shown = MenuSpinner.numbered name i /\
               forall m, 2 <= m < i -> MenuSpinner.numbered name m ∈ values).
Proof.
  intros values. unfold MenuSpinner.add_item, bind, get_state. cbv beta match.
  change (MenuSpinner.values (MenuSpinner.spinner self)) with values.
  assert (Hnd : forall shown : string, shown ∉ values -> NoDup values ->
                                       NoDup (values ++ [shown])).
  { intros shown Hfree Hv. apply NoDup_app. split; [exact Hv |]. split.
    - intros x Hx Hx'. apply list_elem_of_singleton in Hx'. subst x. auto.
    - apply NoDup_singleton. }
  case_bool_decide as Hin.
  - destruct (first_free_found name values 2) as [i Hi]. rewrite Hi.
    apply first_free_some in Hi as (Hle & Hfree & Hbelow).
    exists (MenuSpinner.numbered name i).
    split; [reflexivity |]. split; [exact Hfree |]. split; [auto |].
    split; [intros Hn; destruct (Hn Hin) |].
    intros _. exists i. auto.
  - exists name.
    split; [reflexivity |]. split; [exact Hin |]. split; [auto |].
    split; [reflexivity |]. intros Hn. destruct (Hin Hn).
Qed.

(** X14: [add_item] always returns: its loop ends. The name it lists is the
    given one when that is free, and otherwise the given name followed by
    the least number from 2 on that is free; it is never one of the values
    listed before, so a list without repetitions stays without. The name is
    mapped to the uid, appended to the values, and becomes the text of the
    spinner when that was empty. *)
Theorem add_item_lists_a_fresh_name (self : MenuSpinner.MenuSpinner)
    (name : string) (uid : Z) :
  let values := MenuSpinner.values (MenuSpinner.spinner self) in
  exists shown,
    MenuSpinner.add_item name uid self
    = (Ret tt,
       MenuSpinner.mkMenu
         (MenuSpinner.selected_uid self)
         (MenuSpinner.mkSpinner
            (values ++ [shown])
            (if bool_decide (MenuSpinner.text (MenuSpinner.spinner self) = "")
             then shown else MenuSpinner.text (MenuSpinner.spinner self)))
         (<[shown := uid]> (MenuSpinner.panel_names self))
         (MenuSpinner.spinner_text self)) /\
    (shown ∉ values) /\
    (NoDup values -> NoDup (values ++ [shown])) /\
    (name ∉ values -> shown = name) /\
    (name ∈ values ->
     exists i, 2 <= i /\ shown = MenuSpinner.numbered name i /\
               forall m, 2 <= m < i -> MenuSpinner.numbered name m ∈ values).
Proof. apply add_item_run. Qed.

(** X15: when every name of [panel_names] is listed in the spinner, an
    added item takes no name from an earlier one: the names known before
    still select the uid they selected, the name listed for the new item
    selects the new uid, and every name of [panel_names] is listed again. *)
Theorem added_names_select_their_panels (self self' : MenuSpinner.MenuSpinner)
    (name : string) (uid : Z) :
  names_listed self ->
  MenuSpinner.add_item name uid self = (Ret tt, self') ->
  names_listed self' /\
  (exists shown,
      last (MenuSpinner.values (MenuSpinner.spinner self')) = Some shown /\
      MenuSpinner.selected_uid (snd (MenuSpinner.show_text shown self')) = uid) /\
  (forall k u,
      MenuSpinner.panel_names self !! k = Some u ->
      MenuSpinner.selected_uid (snd (MenuSpinner.show_text k self')) = u).
Proof.
  intros Hlisted Hrun.
  destruct (add_item_run self name uid) as (shown & Heq & Hfree & _). rewrite Heq in Hrun. injection Hrun as <-.
  assert (Hshow : forall k u,
             (<[shown := uid]> (MenuSpinner.panel_names self)) !! k = Some u ->
             MenuSpinner.selected_uid
               (snd (MenuSpinner.show_text k
                       (MenuSpinner.mkMenu
                          (MenuSpinner.selected_uid self)
                          (MenuSpinner.mkSpinner
                             (MenuSpinner.values (MenuSpinner.spinner self) ++ [shown])
                             (if bool_decide
                                   (MenuSpinner.text (MenuSpinner.spinner self) = "")
                              then shown
                              else MenuSpinner.text (MenuSpinner.spinner self)))
                          (<[shown := uid]> (MenuSpinner.panel_names self))
                          (MenuSpinner.spinner_text self)))) = u).
  { intros k u Hk. unfold MenuSpinner.show_text, MenuSpinner.on_spinner_text, bind.
    simpl. rewrite Hk. reflexivity. }
  split; [| split].
  - unfold names_listed. intros k. simpl.
    destruct (decide (shown = k)) as [<- | Hk].
    + intros _. apply elem_of_app. right. apply list_elem_of_singleton.
      reflexivity.
    + rewrite lookup_insert_ne by exact Hk.
      intros Hsome. apply elem_of_app. left. apply Hlisted. exact Hsome.
  - exists shown. split; [simpl; apply last_snoc |].
    apply Hshow. apply lookup_insert_eq.
  - intros k u Hk. apply Hshow. rewrite lookup_insert_ne; [exact Hk |].
    intros ->. apply Hfree, Hlisted. eauto.
Qed.

(** ** The sidebar menu *)

Section sidebar.

Import MenuSidebar.

Implicit Types (self : MenuSidebar) (children : list Label).

Lemma deselected_consistent (v : Z) children :
  Forall (fun b => selected b = true -> uid b = v) (deselect_others v children).
Proof.
  unfold deselect_others.
  induction children as [| b children IH]; simpl; constructor; [| exact IH].
  case_bool_decide as Hb; simpl; [discriminate |].
  intros _. destruct (decide (uid b = v)); [assumption | contradiction].
Qed.

Lemma length_deselect_others (v : Z) children :
  length (deselect_others v children) = length children.
Proof. apply length_map. Qed.

Lemma assign_selected_uid_run self children (v : Z) :
  buttons_layout self = Some children ->
  assign_selected_uid v self
  = (Ret tt, if bool_decide (selected_uid self = v) then self
             else mkMenu v (Some (deselect_others v children))).
Proof.
  intros Hl. unfold assign_selected_uid, on_selected_uid, bind. simpl.
  case_bool_decide; [reflexivity |]. simpl. rewrite Hl. reflexivity.
Qed.

Lemma touch_run self children (i : nat) label :
  buttons_layout self = Some children ->
  children !! i = Some label ->
  on_touch_down i true self
  = (Ret tt,
     let touched := <[i := mkLabel (text label) (uid label) true]> children in
     if bool_decide (selected_uid self = uid label)
     then mkMenu (selected_uid self) (Some touched)
     else mkMenu (uid label) (Some (deselect_others (uid label) touched))).
Proof.
  intros Hl Hi. unfold on_touch_down, bind. simpl. rewrite Hl, Hi. simpl.
  rewrite (assign_selected_uid_run
             (mkMenu (selected_uid self)
                     (Some (<[i := mkLabel (text label) (uid label) true]> children)))
             _ (uid label) eq_refl). simpl.
  case_bool_decide; reflexivity.
Qed.

Lemma add_json_panel_run self children (title : string) (v : Z) :
  buttons_layout self = Some children ->
  add_json_panel title v self
  = (Ret tt,
     let label := mkLabel title v (bool_decide (length children = 0%nat)) in
     if bool_decide (selected_uid self = 0) && negb (bool_decide (0 = v))
     then mkMenu v (Some (label :: deselect_others v children))
     else mkMenu (selected_uid self) (Some (label :: children))).
Proof.
  intros Hl. unfold add_json_panel, add_item, bind. simpl.
  case_bool_decide as Hz; simpl.
  - rewrite (assign_selected_uid_run _ _ v Hl). rewrite Hz.
    case_bool_decide as Hv; simpl.
    + rewrite Hl. case_bool_decide; rewrite Hz; reflexivity.
    + rewrite length_deselect_others. case_bool_decide; reflexivity.
  - rewrite Hl. case_bool_decide; reflexivity.
Qed.

Lemma call_keeps_consistent (c : Call) self :
  consistent self ->
  consistent (snd (call c self)) /\ forall e, fst (call c self) <> Raise e.
Proof.
  intros (children & Hl & Hempty & Hall).
  destruct c as [title v | i collides]; simpl.
  - rewrite (add_json_panel_run _ _ title v Hl). simpl.
    split; [| discriminate].
    destruct (bool_decide (selected_uid self = 0)) eqn:Hz; simpl;
      [destruct (bool_decide (0 = v)) eqn:Hv; simpl |].
    + apply bool_decide_eq_true_1 in Hz, Hv.
      eexists. split; [reflexivity |]. split; [discriminate |].
      constructor; [simpl; congruence | exact Hall].
    + eexists. split; [reflexivity |]. split; [discriminate |].
      constructor; [reflexivity | apply deselected_consistent].
    + apply bool_decide_eq_false_1 in Hz.
      eexists. split; [reflexivity |]. split; [discriminate |].
      constructor; [| exact Hall]. simpl.
      rewrite bool_decide_eq_false_2; [discriminate |].
      intros Hlen. apply Hz, Hempty. destruct children; [reflexivity | discriminate].
  - unfold on_touch_down, bind. simpl. rewrite Hl.
    destruct (children !! i) as [label |] eqn:Hi; simpl;
      [| split; [exists children; auto | discriminate]].
    destruct collides; simpl; [| split; [exists children; auto | discriminate]].
    pose proof (touch_run self children i label Hl Hi) as Hrun.
    unfold on_touch_down, bind in Hrun. simpl in Hrun. rewrite Hl, Hi in Hrun.
    simpl in Hrun. rewrite Hrun. simpl. split; [| discriminate].
    assert (Hne : forall l : list Label, length l = length children -> l <> []).
    { intros l Hlen ->. apply lookup_lt_Some in Hi. simpl in Hlen. lia. }
    case_bool_decide as Hsel.
    + eexists. split; [reflexivity |]. split.
      * intros Hnil. exfalso. refine (Hne _ _ Hnil). apply length_insert.
      * apply Forall_insert; [exact Hall | simpl; auto].
    + eexists. split; [reflexivity |]. split.
      * intros Hnil. exfalso. refine (Hne _ _ Hnil).
        rewrite length_deselect_others. apply length_insert.
      * apply deselected_consistent.
Qed.

Lemma calls_keep_consistent (cs : list Call) self :
  consistent self ->
  consistent (snd (calls cs self)) /\ forall e, fst (calls cs self) <> Raise e.
Proof.
  revert self. induction cs as [| c cs IH]; intros self Hc; simpl.
  - split; [exact Hc | discriminate].
  - unfold bind. destruct (call_keeps_consistent c self Hc) as [Hc1 Hr1].
    destruct (call c self) as [[[] | e | ] self1]; simpl in *.
    + apply IH. exact Hc1.
    + destruct (Hr1 e eq_refl).
    + split; [exact Hc1 | discriminate].
Qed.

(** X16: on a sidebar whose selected labels all carry the selected uid (and
    whose selected uid is 0 while it has no label), no sequence of panels
    added through [Settings.add_json_panel] and of touches on its labels
    raises, and afterwards every selected label again carries the selected
    uid: labels of two different uids are never selected together. *)
Theorem sidebar_selection_stays_consistent (cs : list Call) self :
  consistent self ->
  consistent (snd (calls cs self)) /\ forall e, fst (calls cs self) <> Raise e.
Proof. apply calls_keep_consistent. Qed.

(** X17: a touch inside a label of the sidebar selects that label and its
    uid; labels of any other uid are then unselected, whatever was selected
    before, and no label is added or removed. *)
Theorem touch_selects_the_label self children (i : nat) label :
  consistent self ->
  buttons_layout self = Some children ->
  children !! i = Some label ->
  exists children',
    on_touch_down i true self = (Ret tt, mkMenu (uid label) (Some children')) /\
    children' !! i = Some (mkLabel (text label) (uid label) true) /\
    length children' = length children /\
    Forall (fun b => selected b = true -> uid b = uid label) children'.
Proof.
  intros (children0 & Hl0 & _ & Hall) Hl Hi.
  rewrite Hl in Hl0. injection Hl0 as <-.
  rewrite (touch_run self children i label Hl Hi). simpl.
  assert (Hlt : (i < length children)%nat) by (eapply lookup_lt_Some; eassumption).
  case_bool_decide as Hsel.
  - eexists. rewrite Hsel. split; [reflexivity |].
    split; [apply list_lookup_insert_eq; exact Hlt |].
    split; [apply length_insert |].
    apply Forall_insert; [| simpl; auto].
    rewrite <- Hsel. exact Hall.
  - eexists. split; [reflexivity |].
    split; [| split; [rewrite length_deselect_others; apply length_insert
                     | apply deselected_consistent]].
    unfold deselect_others.
    rewrite list_lookup_fmap, list_lookup_insert_eq by exact Hlt. simpl.
    rewrite bool_decide_eq_false_2 by (intros Hn; apply Hn; reflexivity).
    reflexivity.
Qed.

End sidebar.

(** ** Validators of the text settings *)

Lemma pretty_N_char_no_point (d : N) (s : string) :
  has_point s = false -> has_point (String (pretty_N_char d) s) = false.
Proof.
  intros Hs. unfold pretty_N_char. repeat case_match; exact Hs.
Qed.

Lemma pretty_N_go_no_point (x : N) (s : string) :
  has_point s = false -> has_point (pretty_N_go x s) = false.
Proof.
  revert s. induction (N.lt_wf_0 x) as [x _ IH]; intros s Hs.
  destruct (decide (x = 0)%N) as [-> | Hx].
  - rewrite pretty_N_go_0. exact Hs.
  - rewrite pretty_N_go_step by lia. apply IH.
    + apply N.div_lt; lia.
    + apply pretty_N_char_no_point. exact Hs.
Qed.

Lemma pretty_N_no_point (x : N) : has_point (pretty x) = false.
Proof.
  unfold pretty, pretty_N. case_decide; [reflexivity |].
  apply pretty_N_go_no_point. reflexivity.
Qed.

(** The text of an integer shows no point. *)
Lemma int_text_no_point (n : Z) : has_point (int_text n) = false.
Proof.
  unfold int_text, pretty, pretty_Z. destruct n as [| x | x].
  - reflexivity.
  - apply (pretty_N_no_point (N.pos x)).
  - apply (pretty_N_no_point (N.pos x)).
Qed.

Section validators.

Context {St : Type} `{!ConfigStore St}.

Implicit Types (w : World St) (self : SettingItem).

Lemma assign_same self w (s : string) :
  value self = VStr s ->
  SettingItem.assign_value (VStr s) (self, w) = (Ret tt, (self, w)).
Proof.
  intros Hv. unfold SettingItem.assign_value, bind. simpl. rewrite Hv. simpl.
  rewrite bool_decide_eq_true_2 by reflexivity. reflexivity.
Qed.

Lemma validate_again self w text (s : string) :
  value self = VStr s ->
  (if has_point s
   then exists f, py_float text = Converted f /\ s = float_text f
   else exists n, py_int text = Converted n /\ s = int_text n) ->
  SettingNumeric._validate text (self, w) = (Ret tt, (self, w)).
Proof.
  intros Hv Hconv. unfold SettingNumeric._validate, bind at 1. simpl.
  rewrite Hv. simpl. unfold try_except.
  destruct (has_point s).
  - destruct Hconv as (f & -> & ->). unfold bind. simpl.
    rewrite (assign_same self w _ Hv). reflexivity.
  - destruct Hconv as (n & -> & ->). unfold bind. simpl.
    rewrite (assign_same self w _ Hv). reflexivity.
Qed.

(** X18: an integer setting stays an integer setting: when the value of a
    numeric item shows no point, it shows none after a validation, whatever
    the input was. *)
Theorem integer_setting_stays_integer self w text :
  has_point (py_str (value self)) = false ->
  has_point (py_str (value (fst (snd (SettingNumeric._validate text (self, w))))))
  = false.
Proof.
  intros Hp. destruct (py_int text) as [n | | ] eqn:Hn.
  - rewrite (validate_int self w text n Hp Hn). apply int_text_no_point.
  - rewrite (validate_rejected self w text) by (rewrite Hp; exact Hn). exact Hp.
  - unfold SettingNumeric._validate, bind at 1. simpl.
    rewrite Hp, try_except_return_state, Hn. exact Hp.
Qed.

(** X19: validating the same input a second time changes nothing and calls
    nothing, for a string setting, and for a numeric setting whose value
    shows a point after the first validation exactly if it did before (as it
    always does for an integer setting): the property already holds the
    text, so the assignment does not run the handler. A float setting that
    lost its point is read with [int] the second time, see
    [float_setting_loses_its_point]. *)
Theorem revalidation_is_silent self w text :
  (fst (SettingNumeric._validate text (self, w)) <> Unmodelled ->
   has_point (py_str (value (fst (snd (SettingNumeric._validate text (self, w))))))
   = has_point (py_str (value self)) ->
   SettingNumeric._validate text (snd (SettingNumeric._validate text (self, w)))
   = (Ret tt, snd (SettingNumeric._validate text (self, w)))) /\
  (fst (SettingString._validate text (self, w)) <> Unmodelled ->
   SettingString._validate text (snd (SettingString._validate text (self, w)))
   = (Ret tt, snd (SettingString._validate text (self, w)))).
Proof.
  split.
  - intros Hm Hkind.
    destruct (has_point (py_str (value self))) eqn:Hp.
    + destruct (py_float text) as [f | | ] eqn:Hf.
      * pose proof (validate_float self w text f Hp Hf) as Hv.
        destruct (SettingNumeric._validate text (self, w)) as [r [self1 w1]].
        simpl in *. apply (validate_again self1 w1 text _ Hv).
        rewrite Hv in Hkind. simpl in Hkind. rewrite Hkind. eauto.
      * rewrite (validate_rejected self w text) by (rewrite Hp; exact Hf). simpl.
        apply validate_rejected. rewrite Hp. exact Hf.
      * exfalso. apply Hm. unfold SettingNumeric._validate, bind at 1. simpl.
        rewrite Hp, Hf. reflexivity.
    + destruct (py_int text) as [n | | ] eqn:Hn.
      * pose proof (validate_int self w text n Hp Hn) as Hv.
        destruct (SettingNumeric._validate text (self, w)) as [r [self1 w1]].
        simpl in *. apply (validate_again self1 w1 text _ Hv).
        rewrite int_text_no_point. eauto.
      * rewrite (validate_rejected self w text) by (rewrite Hp; exact Hn). simpl.
        apply validate_rejected. rewrite Hp. exact Hn.
      * exfalso. apply Hm. unfold SettingNumeric._validate, bind at 1. simpl.
        rewrite Hp, Hn. reflexivity.
  - unfold SettingString._validate. destruct (py_strip text) as [s |]; simpl;
      [| intros Hm; destruct (Hm eq_refl)].
    intros _. pose proof (assign_value_holds self w s) as Hv.
    destruct (SettingItem.assign_value (VStr s) (self, w)) as [r [self1 w1]].
    simpl in *. apply assign_same. exact Hv.
Qed.

(** X20: a string setting accepts any text: an input of blanks only is
    committed as the empty string, which replaces the stored value like any
    other change (read, set, write, notification). *)
Theorem blank_string_is_committed self w p c s st sec k cur st1 st2 text :
  py_strip text = Some "" ->
  py_eq (value self) (VStr "") = false ->
  section self = Some sec -> key self = Some k -> sec <> "" -> k <> "" ->
  panel self = Some p -> config p = Some c -> settings p = Some s ->
  configs w !! c = Some st ->
  store_get st (Some sec) (Some k) = Done cur ->
  cur <> "" ->
  store_set st (Some sec) (Some k) "" = Done st1 ->
  store_write st1 = Done st2 ->
  SettingString._validate text (self, w)
  = (Ret tt,
     (with_value self (VStr ""),
      mkWorld (<[c := st2]> (configs w)) (files w)
              (log w ++ [ConfigGet c (Some sec) (Some k);
                         ConfigSet c (Some sec) (Some k) "";
                         ConfigWrite c;
                         OnConfigChange s (Some c) (Some sec) (Some k) ""]))).
Proof.
  intros Hstrip Hne Hsec Hkey Hs Hk Hp Hc Hset Hw Hget Hcur Hst1 Hst2.
  unfold SettingString._validate. rewrite Hstrip.
  unfold SettingItem.assign_value, bind. simpl. rewrite Hne.
  unfold SettingItem.put_self. simpl.
  rewrite (on_value_bound (with_value self (VStr "")) w p sec k (VStr ""))
    by assumption.
  unfold SettingItem.in_world. simpl.
  rewrite (set_value_changed w p c s st (Some sec) (Some k) cur "" st1 st2)
    by assumption.
  reflexivity.
Qed.

(** X21: [register_type] decides the class of the records that carry the
    registered type, replacing an earlier registration of the same name,
    and changes nothing for any other record. *)
Theorem register_type_takes_effect (self : Settings) (tp : string) (cls : SettingClass)
    (p : PanelProps) w :
  (forall d,
      dict_get "type" d = Some (JStr tp) ->
      Settings.create_setting (Settings.register_type self tp cls) p (JObj d) w
      = Settings.instantiate cls p (dict_del "type" d) w) /\
  (forall record,
      (forall d, record = JObj d -> dict_get "type" d <> Some (JStr tp)) ->
      Settings.create_setting (Settings.register_type self tp cls) p record w
      = Settings.create_setting self p record w).
Proof.
  split.
  - intros d Hd. unfold Settings.create_setting, bind. simpl.
    rewrite Hd. rewrite bool_decide_eq_true_2 by eauto. simpl.
    rewrite lookup_insert_eq. reflexivity.
  - intros record Hother. unfold Settings.create_setting, bind.
    destruct record as [ | b | z | s | l | d]; try reflexivity. simpl.
    destruct (bool_decide (is_Some (dict_get "type" d))); [| reflexivity]. simpl.
    destruct (dict_get "type" d) as [ttype |] eqn:Hd; [| reflexivity].
    destruct ttype as [ | b | z | tag | l | d']; try reflexivity. simpl.
    rewrite lookup_insert_ne; [reflexivity |].
    intros ->. apply (Hother d eq_refl). exact Hd.
Qed.

End validators.

(** X22: the registry of a new [Settings] widget is the table of the
    module's documentation: the six documented type names stand for their
    classes, and no other name is registered. *)
Theorem default_types_are_the_documented_ones (u : settings_ref) (tag : string) :
  _types (Settings.__init__ u) !! tag = documented_class tag.
Proof.
  unfold documented_class.
  destruct (String.eqb_spec tag "title") as [-> | ?]; [vm_compute; reflexivity |].
  destruct (String.eqb_spec tag "bool") as [-> | ?]; [vm_compute; reflexivity |].
  destruct (String.eqb_spec tag "numeric") as [-> | ?]; [vm_compute; reflexivity |].
  destruct (String.eqb_spec tag "options") as [-> | ?]; [vm_compute; reflexivity |].
  destruct (String.eqb_spec tag "string") as [-> | ?]; [vm_compute; reflexivity |].
  destruct (String.eqb_spec tag "path") as [-> | ?]; [vm_compute; reflexivity |].
  unfold Settings.__init__, Settings.register_type. simpl.
  repeat (rewrite lookup_insert_ne by congruence). apply lookup_empty.
Qed.

(** ** The further properties on the example data *)

Lemma memory_get_set (st st' : MemoryConfig) (s k : option string) (v : string) :
  memory_set st s k v = Done st' -> memory_get st' s k = Done v.
Proof.
  unfold memory_set, memory_get.
  destruct s as [s |], k as [k |]; try (intros H; discriminate H).
  intros H. case_match; [| discriminate H]. injection H as <-.
  unfold MemoryConfig in *.
  rewrite lookup_insert_eq, lookup_insert_eq. reflexivity.
Qed.

Lemma set_value_without_settings_witness :
  log (snd (SettingsPanel.set_value bare_panel (Some "graphics") (Some "width") "1024"
              example_world))
  = [ConfigGet 0%nat (Some "graphics") (Some "width");
     ConfigSet 0%nat (Some "graphics") (Some "width") "1024";
     ConfigWrite 0%nat].
Proof.
  erewrite (set_value_without_settings example_world bare_panel 0%nat example_config
              (Some "graphics") (Some "width") "800" "1024");
    [reflexivity | reflexivity | reflexivity | reflexivity | reflexivity
    | discriminate | reflexivity | reflexivity].
Defined.

Lemma set_value_failures_witness :
  fst (SettingsPanel.set_value example_panel (Some "graphics") (Some "depth") "24"
         (guarded_world true true)) = Raise (Builtin ConfigParserError) /\
  log (snd (SettingsPanel.set_value example_panel (Some "graphics") (Some "width") "1024"
              (guarded_world false true)))
  = [ConfigGet 0%nat (Some "graphics") (Some "width");
     ConfigSet 0%nat (Some "graphics") (Some "width") "1024"] /\
  log (snd (SettingsPanel.set_value example_panel (Some "graphics") (Some "width") "1024"
              (guarded_world true false)))
  = [ConfigGet 0%nat (Some "graphics") (Some "width");
     ConfigSet 0%nat (Some "graphics") (Some "width") "1024";
     ConfigWrite 0%nat].
Proof.
  split; [| split].
  - destruct (set_value_failures (guarded_world true true) example_panel 0%nat
                (mkGuarded example_config true true)
                (Some "graphics") (Some "depth") "24" eq_refl eq_refl) as (H & _).
    rewrite (H (Builtin ConfigParserError) eq_refl). reflexivity.
  - destruct (set_value_failures (guarded_world false true) example_panel 0%nat
                (mkGuarded example_config false true)
                (Some "graphics") (Some "width") "1024" eq_refl eq_refl) as (_ & H & _).
    rewrite (H "800" (Builtin ValueError) eq_refl ltac:(discriminate) eq_refl).
    reflexivity.
  - destruct (set_value_failures (guarded_world true false) example_panel 0%nat
                (mkGuarded example_config true false)
                (Some "graphics") (Some "width") "1024" eq_refl eq_refl) as (_ & _ & H).
    erewrite (H "800" _ (Builtin IOError) eq_refl ltac:(discriminate) eq_refl eq_refl).
    reflexivity.
Defined.

Lemma second_commit_only_reads_witness :
  log (snd (snd ((SettingItem.on_value (VStr "1") ;;; SettingItem.on_value (VStr "1"))
                   (fullscreen_item, example_world))))
  = [ConfigGet 0%nat (Some "graphics") (Some "fullscreen");
     ConfigSet 0%nat (Some "graphics") (Some "fullscreen") "1";
     ConfigWrite 0%nat;
     OnConfigChange 7%nat (Some 0%nat) (Some "graphics") (Some "fullscreen") "1";
     ConfigGet 0%nat (Some "graphics") (Some "fullscreen")].
Proof.
  erewrite (second_commit_only_reads fullscreen_item example_world example_panel
              0%nat 7%nat example_config "graphics" "fullscreen" (VStr "1") "0");
    [reflexivity
    | intros st st' s k v; apply memory_get_set
    | intros st st' s k [= <-]; reflexivity
    | reflexivity | reflexivity | discriminate | discriminate | reflexivity
    | reflexivity | reflexivity | reflexivity | reflexivity | discriminate
    | reflexivity | reflexivity].
Defined.

Lemma unbound_item_is_display_only_witness :
  SettingItem.assign_value (VStr "Display") (unbound_item, example_world)
  = (Ret tt, (with_value unbound_item (VStr "Display"), example_world)) /\
  snd (snd (SettingString._validate " Display " (unbound_item, example_world)))
  = example_world.
Proof.
  destruct (unbound_item_is_display_only unbound_item example_world eq_refl)
    as (Hassign & _ & Hstring & _).
  split; [apply (Hassign (VStr "Display")) | apply (Hstring " Display ")].
Defined.

Lemma construction_without_key_witness :
  SettingItem.__init__ example_panel [("title", JStr "Advanced")]
    (item_defaults, example_world)
  = (Raise (Builtin ConfigParserError),
     (mkItem None None VNone (Some example_panel),
      mkWorld (configs example_world) (files example_world)
              [ConfigGet 0%nat None None])).
Proof.
  rewrite (construction_without_key example_world example_panel 0%nat example_config
             [("title", JStr "Advanced")]) by reflexivity.
  reflexivity.
Defined.

Lemma loading_only_reads_witness :
  only_reads example_world
    (snd (Settings.create_json_panel (Settings.__init__ 7%nat) "Graphics" (Some 0%nat)
            (Some "settings.json") None example_world)).
Proof.
  apply loading_only_reads. intros H. vm_compute in H. discriminate H.
Defined.

Lemma loaded_items_hold_stored_values_witness :
  exists p,
    fst (Settings.create_json_panel (Settings.__init__ 7%nat) "Graphics" (Some 0%nat)
           (Some "settings.json") None example_world) = Ret p /\
    length (children p) = 3%nat /\
    Forall (well_built (configs example_world) (props p)) (children p).
Proof.
  destruct (Settings.create_json_panel (Settings.__init__ 7%nat) "Graphics" (Some 0%nat)
              (Some "settings.json") None example_world) as [r w'] eqn:Hrun.
  assert (Hr : exists p, r = Ret p /\ length (children p) = 3%nat).
  { vm_compute in Hrun. injection Hrun as <- _. eexists. split; reflexivity. }
  destruct Hr as (p & -> & Hlen). exists p. split; [reflexivity |]. split; [exact Hlen |].
  apply (loaded_items_hold_stored_values _ _ _ _ _ _ _ _ Hrun).
Defined.

Lemma schema_must_be_a_list_witness :
  Settings.create_json_panel (Settings.__init__ 7%nat) "Graphics" (Some 0%nat)
    None (Some "{}") example_world
  = (Raise FirstElementMustBeList, example_world).
Proof.
  apply (schema_must_be_a_list _ _ _ None (Some "{}") example_world "{}" (JObj []));
    [reflexivity | reflexivity | discriminate].
Defined.

Lemma unreadable_file_raises_witness :
  Settings.create_json_panel (Settings.__init__ 7%nat) "Graphics" (Some 0%nat)
    (Some "missing.json") (Some "[]") example_world
  = (Raise (Builtin IOError), example_world).
Proof. apply unreadable_file_raises. reflexivity. Defined.

Lemma element_must_be_an_object_witness :
  exists e,
    Settings.create_setting (Settings.__init__ 7%nat) example_panel (JInt 5)
      example_world = (Raise e, example_world) /\
    (e = MissingTypeElement \/ e = Builtin TypeError).
Proof.
  destruct (element_must_be_an_object (Settings.__init__ 7%nat) "Graphics" (Some 0%nat)
              None (Some "[[], 5]") example_world "[[], 5]" [JList []; JInt 5]
              1%nat (JInt 5) eq_refl eq_refl eq_refl ltac:(discriminate)) as [H _].
  apply (H example_panel example_world).
Defined.

Lemma switch_to_registered_panel_witness :
  ContentNoMenu.switch_to_panel 2 shown_content
  = (Ret true, mkContent (panels shown_content) (Some [11%nat]) [] (Some 11%nat) 2).
Proof.
  destruct (switch_to_registered_panel shown_content 2 11%nat eq_refl eq_refl)
    as [_ H].
  exact H.
Defined.

Lemma add_panel_shows_when_unselected_witness :
  ContentPanel.add_panel ContentPanel.add_widget 12%nat "Zero" 5
    (mkContent {[ 0 := 10%nat ]} (Some [10%nat]) [] (Some 10%nat) 0)
  = (Ret tt, mkContent (<[5 := 12%nat]> {[ 0 := 10%nat ]}) (Some [12%nat]) []
                       (Some 12%nat) 5).
Proof.
  destruct (add_panel_shows_when_unselected
              (mkContent {[ 0 := 10%nat ]} (Some [10%nat]) [] (Some 10%nat) 0)
              12%nat "Zero" 5 eq_refl eq_refl) as [H _].
  exact H.
Defined.

Lemma content_calls_keep_one_panel_witness :
  exists self',
    content_calls ContentNoMenu.add_widget
      [AddPanel 10%nat "First" 1; AddPanel 11%nat "Second" 2; SwitchTo 2; SwitchTo 9]
      empty_content = (Ret tt, self') /\
    shows_current self'.
Proof.
  destruct (content_calls_keep_one_panel
              [AddPanel 10%nat "First" 1; AddPanel 11%nat "Second" 2; SwitchTo 2;
               SwitchTo 9]
              empty_content eq_refl) as [_ H].
  exact H.
Defined.

Lemma add_item_lists_a_fresh_name_witness :
  MenuSpinner.values
    (MenuSpinner.spinner (snd (MenuSpinner.add_item "Kivy" 3 example_spinner)))
  = ["Kivy"; "Kivy 2"; "Kivy 3"].
Proof.
  destruct (add_item_lists_a_fresh_name example_spinner "Kivy" 3)
    as (shown & Hrun & Hfree & _ & _ & Htaken).
  rewrite Hrun. simpl.
  destruct Htaken as (i & Hi & -> & Hbelow);
    [apply list_elem_of_here |].
  f_equal. f_equal. f_equal.
  destruct (decide (i = 2)) as [-> | H2].
  { exfalso. apply Hfree. simpl. vm_compute. apply list_elem_of_further, list_elem_of_here. }
  destruct (decide (i = 3)) as [-> | H3]; [reflexivity |].
  exfalso. assert (H : MenuSpinner.numbered "Kivy" 3 ∈ ["Kivy"; "Kivy 2"])
    by (apply Hbelow; lia).
  vm_compute in H. apply elem_of_cons in H as [H | H]; [discriminate |].
  apply elem_of_cons in H as [H | H]; [discriminate |].
  apply elem_of_nil in H. exact H.
Defined.

Lemma added_names_select_their_panels_witness :
  MenuSpinner.selected_uid
    (snd (MenuSpinner.show_text "Kivy 2"
            (snd (MenuSpinner.add_item "Kivy" 3 example_spinner)))) = 2.
Proof.
  assert (Hall : forall k u,
             MenuSpinner.panel_names example_spinner !! k = Some u ->
             MenuSpinner.selected_uid
               (snd (MenuSpinner.show_text k
                       (snd (MenuSpinner.add_item "Kivy" 3 example_spinner)))) = u);
    [| apply (Hall "Kivy 2" 2); reflexivity].
  apply (added_names_select_their_panels example_spinner _ "Kivy" 3).
  - intros k [u Hk]. simpl in *.
    destruct (decide (k = "Kivy")) as [-> | H1]; [apply list_elem_of_here |].
    destruct (decide (k = "Kivy 2")) as [-> | H2];
      [apply list_elem_of_further, list_elem_of_here |].
    unfold example_spinner in Hk. simpl in Hk.
    rewrite lookup_insert_ne in Hk by congruence.
    rewrite lookup_singleton_ne in Hk by congruence. discriminate.
  - destruct (MenuSpinner.add_item "Kivy" 3 example_spinner) as [r s] eqn:Hrun.
    destruct (add_item_run example_spinner "Kivy" 3) as (shown & Heq & _).
    rewrite Heq in Hrun. injection Hrun as <- <-. reflexivity.
Defined.

Lemma sidebar_selection_stays_consistent_witness :
  MenuSidebar.consistent
    (snd (MenuSidebar.calls
            [MenuSidebar.AddPanel "First" 1; MenuSidebar.AddPanel "Second" 2;
             MenuSidebar.Touch 0 true; MenuSidebar.Touch 1 false]
            (MenuSidebar.mkMenu 0 (Some [])))).
Proof.
  apply (sidebar_selection_stays_consistent
           [MenuSidebar.AddPanel "First" 1; MenuSidebar.AddPanel "Second" 2;
            MenuSidebar.Touch 0 true; MenuSidebar.Touch 1 false]
           (MenuSidebar.mkMenu 0 (Some []))).
  exists []. split; [reflexivity |]. split; [reflexivity | constructor].
Defined.

Lemma touch_selects_the_label_witness :
  exists children',
    MenuSidebar.on_touch_down 0 true example_sidebar
    = (Ret tt, MenuSidebar.mkMenu 2 (Some children')) /\
    children' !! 0%nat = Some (MenuSidebar.mkLabel "Second" 2 true) /\
    length children' = 2%nat /\
    Forall (fun b => MenuSidebar.selected b = true -> MenuSidebar.uid b = 2) children'.
Proof.
  apply (touch_selects_the_label example_sidebar
           [MenuSidebar.mkLabel "Second" 2 false; MenuSidebar.mkLabel "First" 1 true]
           0 (MenuSidebar.mkLabel "Second" 2 false));
    [| reflexivity | reflexivity].
  eexists. split; [reflexivity |]. split; [discriminate |].
  repeat constructor; simpl; discriminate.
Defined.

Lemma integer_setting_stays_integer_witness :
  has_point (py_str (value (fst (snd (SettingNumeric._validate "1024"
                                        (width_item, example_world)))))) = false.
Proof. apply integer_setting_stays_integer. reflexivity. Defined.

Lemma revalidation_is_silent_witness :
  SettingNumeric._validate "1024"
    (snd (SettingNumeric._validate "1024" (width_item, example_world)))
  = (Ret tt, snd (SettingNumeric._validate "1024" (width_item, example_world))).
Proof.
  apply (revalidation_is_silent width_item example_world "1024").
  - vm_compute. discriminate.
  - vm_compute. reflexivity.
Defined.

Lemma blank_string_is_committed_witness :
  log (snd (snd (SettingString._validate "   " (width_item, example_world))))
  = [ConfigGet 0%nat (Some "graphics") (Some "width");
     ConfigSet 0%nat (Some "graphics") (Some "width") "";
     ConfigWrite 0%nat;
     OnConfigChange 7%nat (Some 0%nat) (Some "graphics") (Some "width") ""].
Proof.
  erewrite (blank_string_is_committed width_item example_world example_panel
              0%nat 7%nat example_config "graphics" "width" "800");
    [reflexivity | reflexivity | reflexivity | reflexivity | reflexivity
    | discriminate | discriminate | reflexivity | reflexivity | reflexivity
    | reflexivity | reflexivity | discriminate | reflexivity | reflexivity].
Defined.

Lemma register_type_takes_effect_witness :
  Settings.create_setting
    (Settings.register_type (Settings.__init__ 7%nat) "color" SettingString)
    example_panel
    (JObj [("type", JStr "color"); ("section", JStr "graphics"); ("key", JStr "width")])
    example_world
  = Settings.instantiate SettingString example_panel
      [("section", JStr "graphics"); ("key", JStr "width")] example_world.
Proof.
  destruct (register_type_takes_effect (Settings.__init__ 7%nat) "color" SettingString
              example_panel example_world) as [H _].
  apply (H [("type", JStr "color"); ("section", JStr "graphics"); ("key", JStr "width")]).
  reflexivity.
Defined.
